(** * smart-tutor: the student simulators and the experiment drivers

    A shallow embedding of [code/student.py] and of the orchestration
    procedures of [code/model_training.py] and [code/mcts_tests.py],
    with the properties stated about them.

    Conventions.
    - A Python call that can raise is a computation in [result]; the
      exception that leaves the call is the argument of [Raise].
    - numpy vectors of concept flags, knowledge and visit marks hold the
      numbers 0 and 1; they are lists of [Z].  No arithmetic other than
      sums and products of such entries is done on them.
    - Probabilities and random draws are only compared and stored: they are
      rationals ([Q]), which contain every finite float.
    - The accumulators of [test_dkt] are floats that are added up: their
      arithmetic is a parameter, read as IEEE 754 binary64 ([PrimFloat]) or
      as exact arithmetic.
    - A name that the sources look up and do not bind is looked up in the
      names that the star imports provide, which are an input of the
      model.
    - [np.random.random()] reads the next element of a stream of draws that
      is an input of the model. *)

From Stdlib Require Import ZArith QArith Lia String.
From Stdlib Require Floats.PrimFloat Numbers.Cyclic.Int63.Uint63.
From stdpp Require Import base tactics option list strings.

Local Open Scope Z_scope.

(** ** Python exceptions and fallible computations *)

Inductive exn : Type :=
  | IndexError
  | ValueError
  | TypeError
  | ZeroDivisionError
  | AssertionError
  | RecursionError
  | NameError (name : string)
  | AttributeError (name : string)
  | OSError (errno : Z).

Inductive result (A : Type) : Type :=
  | Ok (a : A)
  | Raise (e : exn).
Arguments Ok {A} a.
Arguments Raise {A} e.

#[global] Instance result_ret : MRet result := fun _ a => Ok a.
#[global] Instance result_bind : MBind result := fun _ _ f m =>
  match m with
  | Ok a => f a
  | Raise e => Raise e
  end.

(** [assert cond] *)
Definition py_assert (cond : bool) : result unit :=
  if cond then Ok tt else Raise AssertionError.

(** [l[i]] for an index produced by [range]: never negative. *)
Definition py_getitem {A} (l : list A) (i : nat) : result A :=
  match l !! i with
  | Some x => Ok x
  | None => Raise IndexError
  end.

(** [l[i]] for any integer index: a negative index counts from the end. *)
Definition py_getitem_int {A} (l : list A) (i : Z) : result A :=
  let len := Z.of_nat (length l) in
  if (0 <=? i) && (i <? len) then py_getitem l (Z.to_nat i)
  else if (- len <=? i) && (i <? 0) then py_getitem l (Z.to_nat (len + i))
  else Raise IndexError.

(** [l[i] = x] *)
Definition py_setitem {A} (l : list A) (i : nat) (x : A) : result (list A) :=
  if decide (i < length l)%nat then Ok (<[i:=x]> l) else Raise IndexError.

(** ** The numpy operations the simulators use *)

(** [np.sum] of a one-dimensional array *)
Definition np_sum (v : list Z) : Z := foldr Z.add 0 v.

(** [np.multiply] of two one-dimensional arrays: elementwise when the
    shapes agree, a length-one operand is broadcast, any other pair of
    shapes raises [ValueError]. *)
Definition np_multiply (a b : list Z) : result (list Z) :=
  if decide (length a = length b) then Ok (zip_with Z.mul a b)
  else match a, b with
       | [x], _ => Ok (map (Z.mul x) b)
       | _, [y] => Ok (map (fun x => x * y) a)
       | _, _ => Raise ValueError
       end.

(** [True == 1] and [False == 0]: a Python [bool] used as an observation. *)
Definition py_int_of_bool (b : bool) : Z := if b then 1 else 0.

(** The Python values that are passed around without being looked into. *)
Inductive pyval : Type :=
  | PyNone
  | PyInt (z : Z)
  | PyBool (b : bool)
  | PyFloat (q : Q)
  | PyObj (name : string).

(** A value used as an array dimension or an index. *)
Definition py_index (v : pyval) : result Z :=
  match v with
  | PyInt z => Ok z
  | PyBool b => Ok (py_int_of_bool b)
  | _ => Raise TypeError
  end.

(** ** Collaborators that live in other modules of the repository *)

(** Modelled from the spec: [concept_dependency_graph.ConceptDependencyGraph]
    is not part of these sources.  It has a concept count [n] and
    [get_prereqs(concept)], which returns the indicator vector of the
    prerequisites of [concept] and has no error case. *)
Record ConceptDependencyGraph : Type := {
  cdg_n : nat;
  get_prereqs : nat -> list Z
}.

(** Modelled from the spec: [exercise.Exercise] is not part of these
    sources.  It is an immutable value holding the vector [concepts] it
    was constructed from, without validation. *)
Record Exercise : Type := mkExercise { concepts : list Z }.

(** [u < p] on floats *)
Definition Qlt_bool (u p : Q) : bool := negb (Qle_bool p u).

(** ** The stream of random draws *)

Record Rng : Type := mkRng { draws : nat -> Q; pos : nat }.

(** [np.random.random()] *)
Definition np_random_random (g : Rng) : Q * Rng :=
  (draws g (pos g), mkRng (draws g) (S (pos g))).

(** ** The checks shared by [Student] and [Student2]

    Both classes define [fulfilled_prereqs] and
    [learned_all_concepts_in_ex] with the same body, reading only
    [self.knowledge].  The loop [for i in xrange(len(concepts)):
    c = concepts[i]] walks the vector with its index; [i] is the index of
    the head of the part still to visit. *)

Fixpoint fulfilled_prereqs_from (concept_tree : ConceptDependencyGraph)
    (knowledge : list Z) (i : nat) (cs : list Z) : result bool :=
  match cs with
  | [] => Ok true
  | c :: rest =>
      if c =? 1 then
        let prereqs := get_prereqs concept_tree i in
        prod ← np_multiply knowledge prereqs;
        if negb (np_sum prod =? np_sum prereqs) then Ok false
        else fulfilled_prereqs_from concept_tree knowledge (S i) rest
      else fulfilled_prereqs_from concept_tree knowledge (S i) rest
  end.

Definition fulfilled_prereqs (concept_tree : ConceptDependencyGraph)
    (knowledge : list Z) (concepts : list Z) : result bool :=
  fulfilled_prereqs_from concept_tree knowledge 0 concepts.

Fixpoint learned_all_concepts_in_ex_from (knowledge : list Z) (c : nat)
    (cs : list Z) : result bool :=
  match cs with
  | [] => Ok true
  | x :: rest =>
      if x =? 1 then
        k ← py_getitem knowledge c;
        if k =? 0 then Ok false
        else learned_all_concepts_in_ex_from knowledge (S c) rest
      else learned_all_concepts_in_ex_from knowledge (S c) rest
  end.

Definition learned_all_concepts_in_ex (knowledge : list Z)
    (concepts : list Z) : result bool :=
  learned_all_concepts_in_ex_from knowledge 0 concepts.

(** ** class Student2: the deterministic two-try student *)

Module Student2.

Record t : Type := mk { knowledge : list Z; visited : list Z }.

(** [Student2(n_concepts)] *)
Definition init (n_concepts : nat) : t :=
  mk (replicate n_concepts 0) (replicate n_concepts 0).

(** The body of the [for c in xrange(len(ex.concepts))] loop of
    [do_exercise], from index [c] on. *)
Fixpoint visit_from (s : t) (c : nat) (cs : list Z) : result t :=
  match cs with
  | [] => Ok s
  | x :: rest =>
      if x =? 1 then
        v ← py_getitem (visited s) c;
        k' ← (if v >=? 1 then py_setitem (knowledge s) c 1
              else Ok (knowledge s));
        vis' ← py_setitem (visited s) c 1;
        visit_from (mk k' vis') (S c) rest
      else visit_from s (S c) rest
  end.

Definition do_exercise (concept_tree : ConceptDependencyGraph)
    (ex : Exercise) (s : t) : result (bool * t) :=
  ok ← fulfilled_prereqs concept_tree (knowledge s) (concepts ex);
  s' ← (if ok : bool then visit_from s 0 (concepts ex) else Ok s);
  r ← learned_all_concepts_in_ex (knowledge s') (concepts ex);
  Ok (r, s').

(** The call [Student2(args...)].  [__init__(self, n_concepts)] has one
    parameter besides [self] and no default: any other number of
    positional arguments is a [TypeError].  [np.zeros] refuses a negative
    dimension. *)
Definition call (args : list pyval) : result t :=
  match args with
  | [a] =>
      n ← py_index a;
      if n <? 0 then Raise ValueError else Ok (init (Z.to_nat n))
  | _ => Raise TypeError
  end.

End Student2.

(** ** class Student: the probabilistic student *)

Module Student.

Record t : Type := mk {
  p_trans_satisfied : Q;
  p_trans_not_satisfied : Q;
  p_get_ex_correct_if_concepts_learned : Q;
  knowledge : list Z
}.

Definition set_knowledge (s : t) (k : list Z) : t :=
  mk (p_trans_satisfied s) (p_trans_not_satisfied s)
     (p_get_ex_correct_if_concepts_learned s) k.

(** [reset]: [np.zeros(self.knowledge.shape[0])] *)
Definition reset (s : t) : t :=
  set_knowledge s (replicate (length (knowledge s)) 0).

(** The [for c in xrange(len(ex.concepts))] loop of [do_exercise], from
    index [c] on.  [and] short-circuits: a draw is consumed only for a
    concept the exercise marks. *)
Fixpoint learn_from (s : t) (g : Rng) (c : nat) (cs : list Z)
    : result (t * Rng) :=
  match cs with
  | [] => Ok (s, g)
  | x :: rest =>
      if x =? 1 then
        let (u, g') := np_random_random g in
        if Qle_bool u (p_trans_satisfied s) then
          k' ← py_setitem (knowledge s) c 1;
          learn_from (set_knowledge s k') g' (S c) rest
        else learn_from s g' (S c) rest
      else learn_from s g (S c) rest
  end.

Definition do_exercise (concept_tree : ConceptDependencyGraph)
    (ex : Exercise) (s : t) (g : Rng) : result (Z * t * Rng) :=
  ok ← fulfilled_prereqs concept_tree (knowledge s) (concepts ex);
  if ok : bool then
    '(s', g') ← learn_from s g 0 (concepts ex);
    learned ← learned_all_concepts_in_ex (knowledge s') (concepts ex);
    if learned : bool then
      let (u, g'') := np_random_random g' in
      if Qle_bool u (p_get_ex_correct_if_concepts_learned s')
      then Ok (1, s', g'') else Ok (0, s', g'')
    else Ok (0, s', g')
  else
    let (u, g') := np_random_random g in
    Ok (if Qle_bool u (p_trans_not_satisfied s) then 1 else 0, s, g').

End Student.

(** ** class StudentAction *)

Module StudentAction.

Record t : Type := mk { concept : Z; conceptvec : list Z }.

Definition __eq__ (self other : t) : bool := concept self =? concept other.

Definition __hash__ (self : t) : Z := concept self.

End StudentAction.

(** A Python [dict] keyed by [StudentAction] objects, as the search tree's
    [children] map is: a key is found through [__hash__] and [__eq__]. *)
Definition same_key (a b : StudentAction.t) : bool :=
  (StudentAction.__hash__ a =? StudentAction.__hash__ b)
  && StudentAction.__eq__ a b.

Fixpoint dict_get {V} (d : list (StudentAction.t * V)) (k : StudentAction.t)
    : option V :=
  match d with
  | [] => None
  | (k', v) :: rest => if same_key k' k then Some v else dict_get rest k
  end.

Fixpoint dict_set {V} (d : list (StudentAction.t * V)) (k : StudentAction.t)
    (v : V) : list (StudentAction.t * V) :=
  match d with
  | [] => [(k, v)]
  | (k', v') :: rest =>
      if same_key k' k then (k', v) :: rest else (k', v') :: dict_set rest k v
  end.

(** ** class StudentExactSim

    The simulator wraps any object with a [knowledge] attribute and a
    [do_exercise] method; [Student] and [Student2] both fit. *)

Class StudentLike (S : Type) : Type := {
  sl_knowledge : S -> list Z;
  sl_do_exercise :
    ConceptDependencyGraph -> Exercise -> S -> Rng -> result (Z * S * Rng)
}.

#[global] Instance Student_like : StudentLike Student.t := {|
  sl_knowledge := Student.knowledge;
  sl_do_exercise := Student.do_exercise
|}.

#[global] Instance Student2_like : StudentLike Student2.t := {|
  sl_knowledge := Student2.knowledge;
  sl_do_exercise := fun concept_tree ex s g =>
    '(r, s') ← Student2.do_exercise concept_tree ex s;
    Ok (py_int_of_bool r, s', g)
|}.

Module StudentExactSim.

Record t (S : Type) : Type := mk { student : S; dgraph : ConceptDependencyGraph }.
Arguments mk {S} student dgraph.
Arguments student {S} _.
Arguments dgraph {S} _.

Definition advance_simulator {S} `{StudentLike S} (self : t S)
    (action : StudentAction.t) (g : Rng)
    : result ((Z * Z) * t S * Rng) :=
  let reward := np_sum (sl_knowledge (student self)) in
  '(ob, s', g') ← sl_do_exercise (dgraph self)
                    (mkExercise (StudentAction.conceptvec action))
                    (student self) g;
  Ok ((ob, reward), mk s' (dgraph self), g').

End StudentExactSim.

(** ** Integer operations of the drivers *)

(** [a % b] on integers: the remainder has the sign of the divisor. *)
Definition py_mod (a b : Z) : result Z :=
  if b =? 0 then Raise ZeroDivisionError else Ok (a mod b).

(** [int(a / b)] on integers.  The repository is Python 2 code ([xrange]),
    where [/] on integers is floor division; when [b] divides [a], true
    division followed by [int] gives the same quotient. *)
Definition py_int_div (a b : Z) : result Z :=
  if b =? 0 then Raise ZeroDivisionError else Ok (a / b).

(** [range(n)] *)
Definition py_range (n : Z) : list Z := map Z.of_nat (seq 0 (Z.to_nat n)).

(** [range(start, stop, step)] *)
Definition py_range3 (start stop step : Z) : result (list Z) :=
  if step =? 0 then Raise ValueError
  else
    let count :=
      if 0 <? step then (stop - start + step - 1) / step
      else (start - stop - step - 1) / (- step) in
    Ok (map (fun k => start + Z.of_nat k * step) (seq 0 (Z.to_nat count))).

(** ** Procedures with effects outside the program

    Directory creation, data loading, training and saving act on the file
    system and on the process state.  A procedure of the drivers is a
    function from that outside state to an outcome and a new state; the
    state survives an exception. *)

Definition io (W A : Type) : Type := W -> result A * W.

#[global] Instance io_ret {W} : MRet (io W) := fun _ a w => (Ok a, w).
#[global] Instance io_bind {W} : MBind (io W) := fun _ _ f m w =>
  match m w with
  | (Ok a, w') => f a w'
  | (Raise e, w') => (Raise e, w')
  end.

Definition lift {W A} (r : result A) : io W A := fun w => (r, w).

(** [try: body / except: pass]: the bare [except] clause catches every
    exception, whatever its class. *)
Definition try_except_pass {W} (body : io W unit) : io W unit :=
  fun w => (Ok tt, snd (body w)).

(** [for x in xs: body], threading an accumulator *)
Fixpoint for_each {W A B} (xs : list A) (acc : B) (body : B -> A -> io W B)
    : io W B :=
  match xs with
  | [] => mret acc
  | x :: rest => acc' ← body acc x; for_each rest acc' body
  end.

(** [Parallel(n_jobs=n_jobs)(tasks)] of joblib: refuses [n_jobs == 0],
    otherwise returns the results of the tasks in the order of the tasks;
    an exception of a task leaves the call.  The worker processes are run
    one after the other here. *)
Fixpoint run_tasks {W A} (tasks : list (io W A)) : io W (list A) :=
  match tasks with
  | [] => mret []
  | t :: rest => a ← t; others ← run_tasks rest; mret (a :: others)
  end.

Definition Parallel {W A} (n_jobs : Z) (tasks : list (io W A)) : io W (list A) :=
  if n_jobs =? 0 then lift (Raise ValueError) else run_tasks tasks.

(** ** The numbers of the accumulators

    The score and best-q accumulators of mcts_tests.py are Python floats,
    and their sums are rounded.  The procedures that add them up are
    written over the operations they use, which are interpreted twice: as
    IEEE 754 binary64, which is what runs, and as exact arithmetic. *)

Class Number (F : Type) : Type := {
  (** [0.0] *)
  num_zero : F;
  (** [x + y] *)
  num_add : F -> F -> F;
  (** [x / y] *)
  num_div : F -> F -> F;
  (** the float of a Python int *)
  num_of_int : Z -> F
}.

(** Python's [float]: binary64, every operation rounded to nearest; a
    division of zero by zero is [nan].  Integers are below [2^63] in
    absolute value. *)
Definition float_of_int (z : Z) : PrimFloat.float :=
  if z <? 0 then PrimFloat.opp (PrimFloat.of_uint63 (Uint63.of_Z (- z)))
  else PrimFloat.of_uint63 (Uint63.of_Z z).

#[global] Instance float_number : Number PrimFloat.float := {|
  num_zero := float_of_int 0;
  num_add := PrimFloat.add;
  num_div := PrimFloat.div;
  num_of_int := float_of_int
|}.

(** Exact arithmetic on the rationals. *)
#[global] Instance exact_number : Number Q := {|
  num_zero := 0%Q;
  num_add := Qplus;
  num_div := Qdiv;
  num_of_int := inject_Z
|}.

(** ** Names and where they are bound *)

(** Name resolution: a name is looked up among the locals of the function,
    then among the names of the module. *)
Definition env : Type := list (string * pyval).

Fixpoint env_lookup (e : env) (x : string) : option pyval :=
  match e with
  | [] => None
  | (y, v) :: rest => if String.eqb y x then Some v else env_lookup rest x
  end.

Definition load_name (locals globals : env) (x : string) : result pyval :=
  match env_lookup locals x with
  | Some v => Ok v
  | None =>
      match env_lookup globals x with
      | Some v => Ok v
      | None => Raise (NameError x)
      end
  end.

Fixpoint load_names (locals globals : env) (xs : list string) : result unit :=
  match xs with
  | [] => Ok tt
  | x :: rest => _ ← load_name locals globals x; load_names locals globals rest
  end.

(** [module.x], the attribute [x] of an imported module: it is found when
    the module binds [x] itself, with one of the statements in [names], or
    through a star import, which binds [star]. *)
Definition module_getattr (names : list string) (star : env) (x : string)
    : result pyval :=
  match env_lookup (map (fun x => (x, PyObj x)) names ++ star) x with
  | Some v => Ok v
  | None => Raise (AttributeError x)
  end.

(** The names student.py binds at module level with its [import],
    [from ... import] and [class] statements.  Its only other source of
    names is [from constants import *]. *)
Definition student_module_names : list string :=
  ["absolute_import"; "division"; "print_function"; "np"; "defaultdict";
   "deque"; "Counter"; "exer"; "Student"; "Student2"; "StudentExactSim";
   "StudentAction"]%string.

(** ** model_training.py and mcts_tests.py: what they call from outside *)

(** The fields of [TrainParams] the drivers read. *)
Record TrainParams : Type := {
  model_id : string;
  n_concepts : nat;
  saved_epochs : list Z;
  run_name : string;
  num_runs : Z;
  mem_horizon : nat;
  dir_name : string;
  stat_name : string
}.

(** Modelled from the spec: [dynamics_model_class.DynamicsModel] is not part
    of these sources.  A loaded model is the function from an interaction
    history to the vector of per-concept probabilities it predicts. *)
Definition DynamicsModel : Type := list (StudentAction.t * Z) -> list Q.

(** ** class RnnStudentSim *)

Module RnnStudentSim.

(** Modelled from the spec: [dynamics_model_class.RnnStudentSim] is not part
    of these sources.  It wraps a model and keeps the [sequence] of
    (action, observation) pairs seen so far. *)
Record t : Type := mk {
  model : DynamicsModel;
  sequence : list (StudentAction.t * Z)
}.

(** Modelled from the spec: [RnnStudentSim.copy] is not part of these
    sources.  It duplicates the sequence, so that advancing the copy leaves
    the original as it was. *)
Definition copy (self : t) : t := mk (model self) (sequence self).

(** Modelled from the spec: [RnnStudentSim.advance_simulator] is not part of
    these sources.  It appends [(action, observation)] to the sequence. *)
Definition advance_simulator (self : t) (action : StudentAction.t) (ob : Z) : t :=
  mk (model self) (sequence self ++ [(action, ob)]).

(** Modelled from the spec: [RnnStudentSim.sample_observations] is not part
    of these sources.  It is the model's prediction at the current
    history. *)
Definition sample_observations (self : t) : list Q := model self (sequence self).

End RnnStudentSim.

(** A memoization table: one row of probabilities per history. *)
Abbreviation table := (list (list Q)).

(** What the drivers call outside these sources: the operating system, the
    data set, model and search libraries, and the bodies of the per-run
    training loops, which only call into those libraries. *)
Class Runtime (W : Type) : Type := {
  (** [os.makedirs(path)] *)
  os_makedirs : string -> io W unit;
  (** [dataset_utils.load_data] and [preprocess_data_for_rnn] *)
  load_training_data : TrainParams -> io W unit;
  (** lines 65-97 of model_training.py: one run [r] of a chunk, giving its
      training and validation losses *)
  train_run : TrainParams -> Z -> io W (list Q * list Q);
  (** lines 511-538 of mcts_tests.py: one run [r] *)
  train_run_sequential : TrainParams -> Z -> io W (list Q * list Q);
  (** [np.savez(stats_path, tloss=..., vloss=..., eps=...)] *)
  np_savez_stats : string -> list (list Q) -> list (list Q) -> list Z -> io W unit;
  (** [dmc.DynamicsModel(model_id, timesteps=horizon, load_checkpoint=False)]
      followed by [load(checkpoint)] *)
  load_dynamics_model : string -> nat -> string -> io W DynamicsModel;
  (** [dmc.DynamicsModel(model_id, timesteps=horizon, load_checkpoint=True)] *)
  load_default_model : string -> nat -> io W DynamicsModel;
  (** [np.savez(outfile, mem_arrays=mem_arrays)] and
      [np.load(chkpt)['mem_arrays']] *)
  np_savez_mem : string -> list table -> io W unit;
  np_load_mem : string -> io W (list table);
  (** [params.checkpoint_pat.format(run_name, r, ep)] and
      [params.mem_pat.format(run_name, r, ep)] *)
  checkpoint_name : TrainParams -> Z -> Z -> string;
  mem_name : TrainParams -> Z -> Z -> string;
  (** [dmc.RnnStudentSimEnsemble(model_list)] and
      [dmc.RnnStudentSimMemEnsemble(n_concepts, mem_array_list)], as the
      prediction function of the ensemble *)
  ensemble_of_models : list DynamicsModel -> DynamicsModel;
  ensemble_of_mem : nat -> list (list table) -> DynamicsModel;
  (** [cdg.ConceptDependencyGraph()] followed by [init_default_tree(n)] *)
  default_tree : nat -> ConceptDependencyGraph;
  (** [dg.generate_student_sample(concept_tree, seqlen, student, policy)] *)
  generate_student_sample :
    ConceptDependencyGraph -> nat -> Student2.t -> string -> io W (list (list Z * Z));
  (** [dg.generate_data(...)] and the printing of [expected_reward] *)
  report_expert_data : ConceptDependencyGraph -> Student2.t -> nat -> io W unit;
  (** [sanitize_probs] and [make_student_action_vec] of the helpers *)
  sanitize_probs : nat -> list Q -> list Q;
  make_student_action_vec : list Z -> StudentAction.t;
  (** [np.random.random()] of the driver process *)
  random_draw : io W Q;
  (** the names that [from constants import *] binds in student.py; the
      module constants is not part of these sources *)
  student_star_names : env;
  (** the call [f(n_concepts, concept)] of an object [f] that the module
      student holds under a name student.py does not define itself *)
  call_student_function : pyval -> nat -> nat -> result StudentAction.t;
  (** the single-trajectory procedures of mcts_tests.py, which run the
      search library: [test_student_exact_single],
      [test_student_exact_single_greedy], [test_dkt_single_greedy] *)
  test_student_exact_single :
    ConceptDependencyGraph -> Student2.t -> nat -> nat -> pyval -> io W (list Z);
  test_student_exact_single_greedy :
    ConceptDependencyGraph -> Student2.t -> nat -> nat -> io W (list Z);
  test_dkt_single_greedy :
    ConceptDependencyGraph -> Student2.t -> nat -> DynamicsModel -> io W (list Z)
}.

(** ['{}/{}'.format(a, b)] *)
Definition path_join (a b : string) : string := (a ++ "/" ++ b)%string.

(** Modelled from the spec: [action_ob_encode] of the helpers module is not
    part of these sources.  It encodes an action and an observation as the
    digit [action * 2 + observation]. *)
Definition action_ob_encode (n_concepts action ob : nat) : nat := (action * 2 + ob)%nat.

(** Modelled from the spec: [history_ix_append] of the helpers module is not
    part of these sources.  It appends a digit to a history index in base
    [2 * n_concepts]: [history_ix * (2*n_concepts) + digit]. *)
Definition history_ix_append (n_concepts history_ix digit : nat) : nat :=
  (history_ix * (2 * n_concepts) + digit)%nat.

(** Modelled from the spec: [num_histories] of the helpers module is not
    part of these sources.  [num_histories(base, length)] is
    [base^length]. *)
Definition num_histories (base len : nat) : nat := (base ^ len)%nat.

(** [np.zeros((rows, width))] *)
Definition np_zeros2 (rows width : nat) : table :=
  replicate rows (replicate width 0%Q).

(** The value stored by [a[ix,:] = row]: [row] itself when it has the width
    of the table, a single number repeated, [ValueError] otherwise. *)
Definition np_broadcast_to (row : list Q) (width : nat) : result (list Q) :=
  if decide (length row = width) then Ok row
  else match row with
       | [x] => Ok (replicate width x)
       | _ => Raise ValueError
       end.

(** ** model_training.py *)

Module model_training.

(** *** Memoization of a model's predictions *)

(** [mem_arrays[step][ix,:] = row] *)
Definition store_row (mem_arrays : list table) (step ix : nat) (row : list Q)
    : result (list table) :=
  tbl ← py_getitem mem_arrays step;
  old ← py_getitem tbl ix;
  new ← np_broadcast_to row (length old);
  Ok (<[step := <[ix := new]> tbl]> mem_arrays).

(** [for x in xs: body] over a fallible body *)
Fixpoint for_result {A B} (xs : list A) (acc : B) (body : B -> A -> result B)
    : result B :=
  match xs with
  | [] => Ok acc
  | x :: rest => acc' ← body acc x; for_result rest acc' body
  end.

Section Memoize.

(** [st] is the module student: [st_star] are the names its star import
    binds, and [call_st] is the call of an object found there. *)
Variable st_star : env.
Variable call_st : pyval -> nat -> nat -> result StudentAction.t.

(** [dkt_memoize_single_recurse].  [depth] bounds the nesting of the
    recursive calls; a call that would nest deeper stops with
    [RecursionError].  Each call tests [step > horizon] first.  In the
    body, line 161 evaluates [st.make_student_action] and calls what it
    finds, before line 163 assigns the row. *)
Fixpoint dkt_memoize_single_recurse_depth (depth : nat) (n_concepts : nat)
    (dkt : RnnStudentSim.t) (horizon step history_ix : nat)
    (mem_arrays : list table) : result (list table) :=
  if decide (horizon < step)%nat then Ok mem_arrays
  else match depth with
  | O => Raise RecursionError
  | S depth' =>
      for_result (seq 0 n_concepts) mem_arrays (fun mem_arrays next_action =>
        for_result [0; 1]%nat mem_arrays (fun mem_arrays next_ob =>
          let next_branch := action_ob_encode n_concepts next_action next_ob in
          let next_history_ix := history_ix_append n_concepts history_ix next_branch in
          let next_dkt := RnnStudentSim.copy dkt in
          make_student_action ←
            module_getattr student_module_names st_star "make_student_action";
          action ← call_st make_student_action n_concepts next_action;
          let next_dkt :=
            RnnStudentSim.advance_simulator next_dkt action (Z.of_nat next_ob) in
          mem_arrays ← store_row mem_arrays step next_history_ix
                         (RnnStudentSim.sample_observations next_dkt);
          dkt_memoize_single_recurse_depth depth' n_concepts next_dkt horizon
            (S step) next_history_ix mem_arrays))
  end.

(** The recursion from [step] nests [horizon + 1 - step] calls. *)
Definition dkt_memoize_single_recurse (n_concepts : nat) (dkt : RnnStudentSim.t)
    (horizon step history_ix : nat) (mem_arrays : list table)
    : result (list table) :=
  dkt_memoize_single_recurse_depth (S horizon - step) n_concepts dkt horizon
    step history_ix mem_arrays.

(** Lines 180-189 of [dkt_memoize_single]: the tables are allocated and
    filled from step 1 and history index 0. *)
Definition allocate_mem_arrays (n_concepts horizon : nat) : list table :=
  let index_base := (n_concepts * 2)%nat in
  map (fun i => np_zeros2 (num_histories index_base i) n_concepts)
      (seq 0 (horizon + 1)).

Definition memoize (n_concepts : nat) (dkt : RnnStudentSim.t) (horizon : nat)
    : result (list table) :=
  dkt_memoize_single_recurse n_concepts dkt horizon 1 0
    (allocate_mem_arrays n_concepts horizon).

End Memoize.

Section WithRuntime.
Context {W : Type} `{Runtime W}.

Definition dkt_memoize_single (n_concepts : nat) (model_id checkpoint : string)
    (horizon : nat) (outfile : string) : io W unit :=
  dmodel ← load_dynamics_model model_id horizon checkpoint;
  let dkt := RnnStudentSim.mk dmodel [] in
  mem_arrays ← lift (memoize student_star_names call_student_function
                       n_concepts dkt horizon);
  np_savez_mem outfile mem_arrays.

Definition dkt_memoize_chunk (params : TrainParams)
    (runstartix chunk_num_runs : Z) : io W unit :=
  for_each (py_range chunk_num_runs) tt (fun _ offset =>
    let r := runstartix + offset in
    for_each (saved_epochs params) tt (fun _ ep =>
      let checkpoint_path := path_join (dir_name params) (checkpoint_name params r ep) in
      let mem_path := path_join (dir_name params) (mem_name params r ep) in
      dkt_memoize_single (n_concepts params) (model_id params) checkpoint_path
        (mem_horizon params) mem_path)).

(** *** Training *)

(** [_dkt_train_models_chunk(params, runstartix, chunk_num_runs)] *)
Definition _dkt_train_models_chunk (params : TrainParams)
    (runstartix chunk_num_runs : Z) : io W (list (list Q) * list (list Q)) :=
  _ ← load_training_data params;
  for_each (py_range chunk_num_runs) ([], [])
    (fun '(train_losses, val_losses) offset =>
       let r := runstartix + offset in
       '(tl, vl) ← train_run params r;
       mret (train_losses ++ [tl], val_losses ++ [vl])).

(** Lines 115-118 and the [range] of line 121 of [dkt_train_models]; the
    same statements are lines 225-228 and 232 of [dkt_memoize_models].
    The result is [n_jobs] and the arguments [(startix, runs_per_job)] of
    the worker calls handed to [Parallel]. *)
Definition partition_runs (params : TrainParams) : result (Z * list (Z * Z)) :=
  let n_jobs := Z.min 5 (num_runs params) in
  m ← py_mod (num_runs params) n_jobs;
  _ ← py_assert (m =? 0);
  runs_per_job ← py_int_div (num_runs params) n_jobs;
  starts ← py_range3 0 (num_runs params) runs_per_job;
  Ok (n_jobs, map (fun startix => (startix, runs_per_job)) starts).

(** Lines 112-130 of [dkt_train_models]: what follows the [try]. *)
Definition dkt_train_models_body (params : TrainParams) : io W unit :=
  '(n_jobs, chunks) ← lift (partition_runs params);
  losses ← Parallel n_jobs
    (map (fun '(startix, runs_per_job) =>
            _dkt_train_models_chunk params startix runs_per_job) chunks);
  let train_losses := concat (map fst losses) in
  let val_losses := concat (map snd losses) in
  let stats_path := path_join (dir_name params) (stat_name params) in
  np_savez_stats stats_path train_losses val_losses (saved_epochs params).

Definition dkt_train_models (params : TrainParams) : io W unit :=
  _ ← try_except_pass (os_makedirs (dir_name params));
  dkt_train_models_body params.

Definition dkt_memoize_models (params : TrainParams) : io W unit :=
  '(n_jobs, chunks) ← lift (partition_runs params);
  _ ← Parallel n_jobs
    (map (fun '(startix, runs_per_job) =>
            dkt_memoize_chunk params startix runs_per_job) chunks);
  mret tt.

(** The run indices a worker goes through: [r = runstartix + offset] for
    [offset in range(chunk_num_runs)], in [_dkt_train_models_chunk] and
    in [dkt_memoize_chunk]. *)
Definition chunk_runs (chunk : Z * Z) : list Z :=
  map (fun offset => fst chunk + offset) (py_range (snd chunk)).

(** *** Multistep error *)

(** [errors[pol,t] += v] *)
Definition add_at (errors : table) (pol t : nat) (v : Q) : result table :=
  row ← py_getitem errors pol;
  old ← py_getitem row t;
  Ok (<[pol := <[t := (old + v)%Q]> row]> errors).

Definition dkt_multistep_single (n_concepts n_trajectories : nat)
    (model_id : string) (checkpoints : list string) (horizon : nat)
    (use_mem : bool) : io W table :=
  predict ←
    (if negb use_mem then
       model_list ← for_each checkpoints [] (fun model_list chkpt =>
         model ← load_dynamics_model model_id horizon chkpt;
         mret (model_list ++ [model]));
       mret (ensemble_of_models model_list)
     else
       mem_array_list ← for_each checkpoints [] (fun mem_array_list chkpt =>
         mem_arrays ← np_load_mem chkpt;
         mret (mem_array_list ++ [mem_arrays]));
       mret (ensemble_of_mem n_concepts mem_array_list));
  let dkt := RnnStudentSim.mk predict [] in
  let concept_tree := default_tree n_concepts in
  test_student ← lift (Student2.call [PyInt (Z.of_nat n_concepts); PyBool true]);
  let policies := ["random"; "expert"]%string in
  let errors := np_zeros2 2 (horizon + 1) in
  errors ← for_each (seq 0 2) errors (fun errors pol =>
    policy ← lift (py_getitem policies pol);
    for_each (seq 0 n_trajectories) errors (fun errors i =>
      let curr_dkt := RnnStudentSim.copy dkt in
      traj ← generate_student_sample concept_tree (horizon + 1) test_student policy;
      '(errors, _) ← for_each (seq 0 (horizon + 1)) (errors, curr_dkt)
        (fun '(errors, curr_dkt) t =>
           step ← lift (py_getitem traj t);
           let curr_action := make_student_action_vec (fst step) in
           let curr_ob := snd step in
           let curr_probs :=
             sanitize_probs n_concepts (RnnStudentSim.sample_observations curr_dkt) in
           u ← random_draw;
           p ← lift (py_getitem_int curr_probs (StudentAction.concept curr_action));
           let sampled_ob := if Qlt_bool u p then 1 else 0 in
           let curr_dkt := RnnStudentSim.advance_simulator curr_dkt curr_action sampled_ob in
           errors ← lift (add_at errors pol t ((inject_Z curr_ob - p) ^ 2)%Q);
           mret (errors, curr_dkt));
      mret errors));
  mret (map (map (fun e => (e / inject_Z (Z.of_nat n_trajectories))%Q)) errors).

End WithRuntime.
End model_training.

(** ** mcts_tests.py *)

(** [np.mean] of a knowledge vector *)
Definition np_mean (k : list Z) : Q :=
  (inject_Z (np_sum k) / inject_Z (Z.of_nat (length k)))%Q.

Module mcts_tests.

(** The names mcts_tests.py binds at module level with its [import],
    [def] and [class] statements and in its main block. *)
Definition module_names : list string :=
  ["np"; "sp"; "tf"; "tflearn"; "time"; "copy"; "pickle"; "mp"; "six"; "os";
   "constants"; "dg"; "cdg"; "st"; "exer"; "dmc"; "dataset_utils";
   "SimpleMDP"; "Parallel"; "delayed"; "create_custom_dependency";
   "tree_policies"; "default_policies"; "backups";
   "MCTS"; "ExactGreedyPolicy"; "DKTGreedyPolicy"; "ActionNode"; "StateNode";
   "DKTState"; "StudentExactState"; "DENSE"; "SEMISPARSE"; "SPARSE";
   "debug_visiter"; "test_student_exact_single";
   "test_student_exact_single_greedy"; "test_student_exact_chunk";
   "test_student_exact"; "test_dkt_single"; "test_dkt_single_greedy";
   "test_dkt_chunk"; "test_dkt"; "ExtractCallback"; "staggered_dkt_training";
   "test_dkt_early_stopping"; "dkt_test_policy"; "dkt_train_models";
   "dkt_test_models_mcts"; "dkt_test_models_policy";
   "starttime"; "TrainParams"; "TestParams"; "endtime"]%string.

(** The module's namespace: its own names, and [outer], the names that
    the three [from ... import *] statements and the builtins provide. *)
Definition module_globals (outer : env) : env :=
  map (fun x => (x, PyObj x)) module_names ++ outer.

Section WithRuntime.
Context {W : Type} `{Runtime W}.

(** [dkt_train_models(params)], the sequential version of this file.
    Lines 499-542: what follows the [try]. *)
Definition dkt_train_models_body (params : TrainParams) : io W unit :=
  total_epochs ← lift (py_getitem_int (saved_epochs params) (-1));
  _ ← load_training_data params;
  '(train_losses, val_losses) ←
    for_each (py_range (num_runs params)) ([], [])
      (fun '(train_losses, val_losses) r =>
         '(tl, vl) ← train_run_sequential params r;
         mret (train_losses ++ [tl], val_losses ++ [vl]));
  let stats_path := path_join (dir_name params) (stat_name params) in
  np_savez_stats stats_path train_losses val_losses (saved_epochs params).

Definition dkt_train_models (params : TrainParams) : io W unit :=
  _ ← try_except_pass (os_makedirs (dir_name params));
  dkt_train_models_body params.

(** [test_student_exact_chunk] *)
Definition test_student_exact_chunk (n_trajectories : nat)
    (dgraph : ConceptDependencyGraph) (student : Student2.t)
    (horizon n_rollouts : nat) (use_greedy : bool) (r_type : pyval) : io W Q :=
  for_each (seq 0 n_trajectories) 0%Q (fun acc i =>
    k ← (if use_greedy
         then test_student_exact_single_greedy dgraph student horizon n_rollouts
         else test_student_exact_single dgraph student horizon n_rollouts r_type);
    mret (acc + np_mean k)%Q).

(** [test_student_exact()] *)
Definition test_student_exact (outer : env) : io W unit :=
  let globals := module_globals outer in
  let use_greedy := false in
  r_type ← lift (load_name [] globals "DENSE");
  let n_concepts := 4%nat in
  let horizon := 6%nat in
  let n_rollouts := 50%nat in
  let n_trajectories := 100%nat in
  let n_jobs := 8%nat in
  let traj_per_job := (n_trajectories / n_jobs)%nat in
  let dgraph := default_tree n_concepts in
  student2 ← lift (Student2.call [PyInt (Z.of_nat n_concepts)]);
  let test_student := student2 in
  let locals : env :=
    [("cdg", PyObj "cdg");
     ("create_custom_dependency", PyObj "create_custom_dependency");
     ("use_greedy", PyBool use_greedy); ("r_type", r_type);
     ("n_concepts", PyInt 4); ("learn_prob", PyFloat (1 # 2));
     ("horizon", PyInt 6); ("n_rollouts", PyInt 50);
     ("n_trajectories", PyInt 100); ("n_jobs", PyInt 8);
     ("traj_per_job", PyInt 12); ("dgraph", PyObj "dgraph");
     ("student2", PyObj "student2"); ("test_student", PyObj "student2")]%string in
  accs ← Parallel (Z.of_nat n_jobs)
    (map (fun _ : nat =>
            _ ← lift (load_names locals globals
                        ["delayed"; "test_student_exact_chunk"; "traj_per_job";
                         "dgraph"; "test_student"; "horizon"; "n_rollouts";
                         "use_greedy"]%string);
            sparse_r ← lift (load_name locals globals "sparse_r");
            test_student_exact_chunk traj_per_job dgraph test_student horizon
              n_rollouts use_greedy sparse_r)
         (seq 0 n_jobs));
  let avg := (foldr Qplus 0 accs / inject_Z (Z.of_nat (n_jobs * traj_per_job)))%Q in
  report_expert_data dgraph test_student horizon.

End WithRuntime.

Section Dkt.
Context {W F : Type} `{Runtime W} `{Number F}.

(** [test_dkt_single], lines 202-242, runs the search library: it returns
    the knowledge at the end of the trajectory and [best_q_value], a
    float. *)
Variable test_dkt_single :
  ConceptDependencyGraph -> Student2.t -> nat -> nat -> DynamicsModel -> pyval
  -> bool -> io W (list Z * F).

(** [np.mean(k)] of a knowledge vector, as a float *)
Definition np_mean_float (k : list Z) : F :=
  num_div (num_of_int (np_sum k)) (num_of_int (Z.of_nat (length k))).

(** One trajectory of [test_dkt_chunk]: the knowledge at its end and the
    [best_q_value] that goes with it. *)
Definition dkt_trajectory (dgraph : ConceptDependencyGraph) (student : Student2.t)
    (horizon n_rollouts : nat) (model : DynamicsModel) (use_greedy : bool)
    (r_type : pyval) (use_real : bool) : io W (list Z * F) :=
  if negb use_greedy
  then test_dkt_single dgraph student horizon n_rollouts model r_type use_real
  else k ← test_dkt_single_greedy dgraph student horizon model;
       mret (k, num_of_int 0).

(** [load the model] of [test_dkt_chunk] *)
Definition chunk_model (model_id : string) (chkpt : option string)
    (horizon : nat) : io W DynamicsModel :=
  match chkpt with
  | Some c => load_dynamics_model model_id horizon c
  | None => load_default_model model_id horizon
  end.

(** [test_dkt_chunk]: [acc] and [best_q] start at [0.0] and grow by
    [+=], one trajectory after the other. *)
Definition test_dkt_chunk (n_trajectories : nat)
    (dgraph : ConceptDependencyGraph) (student : Student2.t)
    (model_id : string) (chkpt : option string) (horizon n_rollouts : nat)
    (use_greedy : bool) (r_type : pyval) (use_real : bool) : io W (F * F) :=
  model ← chunk_model model_id chkpt horizon;
  for_each (seq 0 n_trajectories) (num_zero, num_zero) (fun '(acc, best_q) i =>
    '(k, best_q_value) ←
      dkt_trajectory dgraph student horizon n_rollouts model use_greedy r_type use_real;
    mret (num_add acc (np_mean_float k), num_add best_q best_q_value)).

(** The sum of a column of an array: the first number, to which the
    others are added in order.  (Without any number the sum would be
    [0.0]; [test_dkt] has eight rows.) *)
Definition np_add_reduce (xs : list F) : F :=
  match xs with
  | [] => num_zero
  | x :: rest => fold_left num_add rest x
  end.

(** [np.sum(accs, axis=0)] of the array of the workers' pairs: the sums
    of its two columns. *)
Definition np_sum_axis0 (accs : list (F * F)) : F * F :=
  (np_add_reduce (map fst accs), np_add_reduce (map snd accs)).

(** Lines 323-347 of [test_dkt], for any numbers [n_jobs] of workers and
    [traj_per_job] of trajectories per worker. *)
Definition test_dkt_jobs (n_jobs traj_per_job : nat) (model_id : string)
    (n_rollouts : nat) (r_type : pyval) (use_real : bool)
    (chkpt : option string) : io W (F * F) :=
  let n_concepts := 4%nat in
  let use_greedy := false in
  let horizon := 6%nat in
  let dgraph := default_tree n_concepts in
  student2 ← lift (Student2.call [PyInt (Z.of_nat n_concepts)]);
  let test_student := student2 in
  accs ← Parallel (Z.of_nat n_jobs)
    (map (fun _ : nat =>
            test_dkt_chunk traj_per_job dgraph test_student model_id chkpt
              horizon n_rollouts use_greedy r_type use_real)
         (seq 0 n_jobs));
  let total := num_of_int (Z.of_nat (n_jobs * traj_per_job)) in
  let results := np_sum_axis0 accs in
  let avg_acc := num_div (fst results) total in
  let avg_best_q := num_div (snd results) total in
  _ ← report_expert_data dgraph test_student horizon;
  mret (avg_acc, avg_best_q).

(** [test_dkt]: eight workers, [n_trajectories // 8] trajectories each *)
Definition test_dkt (model_id : string) (n_rollouts n_trajectories : nat)
    (r_type : pyval) (use_real : bool) (chkpt : option string) : io W (F * F) :=
  let n_jobs := 8%nat in
  let traj_per_job := (n_trajectories / n_jobs)%nat in
  test_dkt_jobs n_jobs traj_per_job model_id n_rollouts r_type use_real chkpt.



End Dkt.

End mcts_tests.

(** ** Notions used to state the properties *)





(** ** Concrete data for the examples *)

(** A three-concept tree in which concept 1 has concept 0 as its only
    prerequisite and the other concepts have none. *)
Definition example_tree : ConceptDependencyGraph :=
  {| cdg_n := 3;
     get_prereqs := fun i => if decide (i = 1%nat) then [1; 0; 0] else [0; 0; 0] |}.

Definition example_rng : Rng := mkRng (fun i => (1 # 4)%Q) 0.

(** An exercise tests only concept [c] when its vector has a 1 at [c] and
    nowhere else. *)
Definition tests_only (concepts : list Z) (c : nat) : Prop :=
  concepts !! c = Some 1 /\ forall i, i <> c -> concepts !! i <> Some 1.

(** A runtime whose outside state is the log of the calls made to it.
    [os.makedirs] has the outcome [makedirs]; every other call succeeds. *)
Definition logged {A} (what : string) (a : A) : io (list string) A :=
  fun w => (Ok a, w ++ [what]).

Definition example_runtime (makedirs : result unit) : Runtime (list string) := {|
  os_makedirs := fun path w => (makedirs, w ++ ["makedirs"%string]);
  load_training_data := fun _ => logged "load_data" tt;
  train_run := fun _ _ => logged "train_run" ([], []);
  train_run_sequential := fun _ _ => logged "train_run" ([], []);
  np_savez_stats := fun _ _ _ _ => logged "savez" tt;
  load_dynamics_model := fun _ _ _ => logged "load_model" (fun _ => []);
  load_default_model := fun _ _ => logged "load_model" (fun _ => []);
  np_savez_mem := fun _ _ => logged "savez" tt;
  np_load_mem := fun _ => logged "load_mem" [];
  checkpoint_name := fun _ _ _ => "checkpoint"%string;
  mem_name := fun _ _ _ => "mem"%string;
  ensemble_of_models := fun _ _ => [];
  ensemble_of_mem := fun _ _ _ => [];
  default_tree := fun _ => example_tree;
  generate_student_sample := fun _ _ _ _ => logged "sample" [];
  report_expert_data := fun _ _ _ => logged "report" tt;
  sanitize_probs := fun _ probs => probs;
  make_student_action_vec := fun v => StudentAction.mk 0 v;
  random_draw := logged "random" (1 # 2)%Q;
  student_star_names := [("N_CONCEPTS", PyInt 4)]%string;
  call_student_function := fun _ _ _ => Raise TypeError;
  test_student_exact_single := fun _ _ _ _ _ => logged "trajectory" [1; 1; 0; 0];
  test_student_exact_single_greedy := fun _ _ _ _ => logged "trajectory" [1; 1; 0; 0];
  test_dkt_single_greedy := fun _ _ _ _ => logged "trajectory" [1; 1; 0; 0]
|}.

Definition example_params (runs : Z) : TrainParams := {|
  model_id := "test2_model_small";
  n_concepts := 4;
  saved_epochs := [13];
  run_name := "runB";
  num_runs := runs;
  mem_horizon := 1;
  dir_name := "experiments/test2_model_small";
  stat_name := "stats-runB"
|}.




(** A search that always finds the best q 3/2, in exact arithmetic. *)
Definition constant_search :
    ConceptDependencyGraph -> Student2.t -> nat -> nat -> DynamicsModel -> pyval
    -> bool -> io (list string) (list Z * Q) :=
  fun _ _ _ _ _ _ _ => logged "trajectory" ([1; 1; 0; 0], (3 # 2)%Q).


(** [errno] values of [OSError] *)
Definition EACCES : Z := 13.
Definition EEXIST : Z := 17.

(** ** Notions used to state the further properties *)

(** A vector of flags: every entry is 0 or 1. *)
Definition binary (v : list Z) : Prop := Forall (fun x => x = 0 \/ x = 1) v.

(** Every concept that [prereqs] marks is mastered in [knowledge]. *)
Definition prereqs_mastered (knowledge prereqs : list Z) : Prop :=
  forall j, prereqs !! j = Some 1 -> knowledge !! j = Some 1.

(** The number of concepts an exercise marks *)
Definition count_marked (concepts : list Z) : nat :=
  length (filter (fun x => x = 1) concepts).

(** Every mastered concept has its visit mark. *)
Definition mastered_were_visited (s : Student2.t) : Prop :=
  forall i, Student2.knowledge s !! i = Some 1 ->
    exists v, Student2.visited s !! i = Some v /\ 1 <= v.

(** ** More of model_training.py: the loop over the saved epochs *)

(** What the training loop does to the model library: it trains for one
    more epoch, or it saves the checkpoint of epoch [ep]. *)
Inductive train_event : Type :=
  | TrainEpoch
  | SaveCheckpoint (ep : Z).

Definition log_event (e : train_event) : io (list train_event) unit :=
  fun w => (Ok tt, w ++ [e]).

(** Lines 68-97 of model_training.py, the body of [_dkt_train_models_chunk]
    for one run: [epochs_trained] starts at 0; for each [ep] of
    [saved_epochs], [epochs_to_train = ep+1 - epochs_trained] is asserted
    positive, that many epochs are trained one at a time, the checkpoint
    of [ep] is saved and [epochs_trained] becomes [ep+1].  The outside
    state is the log of the epochs trained and the checkpoints saved.
    Lines 514-538 of mcts_tests.py compute the same numbers. *)
Fixpoint train_saved_epochs (epochs_trained : Z) (saved_epochs : list Z)
    : io (list train_event) unit :=
  match saved_epochs with
  | [] => mret tt
  | ep :: rest =>
      let epochs_to_train := ep + 1 - epochs_trained in
      _ ← lift (py_assert (0 <? epochs_to_train));
      _ ← for_each (py_range epochs_to_train) tt (fun _ _ => log_event TrainEpoch);
      _ ← log_event (SaveCheckpoint ep);
      train_saved_epochs (ep + 1) rest
  end.

(** The checkpoints of a log, each with the number of epochs trained
    before it was saved. *)
Fixpoint checkpoints_from (trained : Z) (log : list train_event) : list (Z * Z) :=
  match log with
  | [] => []
  | TrainEpoch :: rest => checkpoints_from (trained + 1) rest
  | SaveCheckpoint ep :: rest => (ep, trained) :: checkpoints_from trained rest
  end.

(** A list of epochs that increases strictly, starting above [prev]. *)
Fixpoint increasing_above (prev : Z) (epochs : list Z) : Prop :=
  match epochs with
  | [] => True
  | ep :: rest => prev < ep /\ increasing_above ep rest
  end.

(** ** More of model_training.py: the callback of the training calls *)

Module ExtractCallback.

(** [self.tstates]: one list of training states per epoch begun. *)
Definition t (A : Type) : Type := list (list A).

(** [__init__] *)
Definition init {A} : t A := [].

(** [on_epoch_begin]: [self.tstates.append([])] *)
Definition on_epoch_begin {A} (self : t A) : t A := self ++ [[]].

(** [on_batch_end]: [self.tstates[-1].append(copy.copy(ts))] *)
Definition on_batch_end {A} (self : t A) (ts : A) : result (t A) :=
  batch ← py_getitem_int self (-1);
  py_setitem self (length self - 1) (batch ++ [ts]).

(** The calls the training library makes to a callback. *)
Inductive event (A : Type) : Type :=
  | EpochBegin
  | BatchEnd (ts : A).
Arguments EpochBegin {A}.
Arguments BatchEnd {A} ts.

Definition dispatch {A} (self : t A) (ev : event A) : result (t A) :=
  match ev with
  | EpochBegin => Ok (on_epoch_begin self)
  | BatchEnd ts => on_batch_end self ts
  end.

Definition replay {A} (events : list (event A)) (self : t A) : result (t A) :=
  model_training.for_result events self dispatch.

(** The calls made while training over [epochs], given as the list of the
    training states of the batches of each epoch. *)
Definition fit_events {A} (epochs : list (list A)) : list (event A) :=
  flat_map (fun batches => EpochBegin :: map BatchEnd batches) epochs.

(** Line 94 of model_training.py:
    [[batch[-1].val_loss for batch in ecall.tstates]] *)
Definition last_val_losses {A} (val_loss : A -> Q) (tstates : t A)
    : result (list Q) :=
  model_training.for_result tstates [] (fun losses batch =>
    ts ← py_getitem_int batch (-1);
    Ok (losses ++ [val_loss ts])).

End ExtractCallback.

(** ** More of model_training.py: the multistep driver and the ensembles *)

(** The names model_training.py binds at module level with its [import],
    [def] and [class] statements. *)
Definition model_training_module_names : list string :=
  ["np"; "sp"; "tf"; "tflearn"; "time"; "copy"; "pickle"; "mp"; "six"; "os";
   "random"; "itertools"; "constants"; "dg"; "cdg"; "st"; "dmc";
   "dataset_utils"; "SimpleMDP"; "Parallel"; "delayed";
   "create_custom_dependency"; "ExtractCallback"; "_dkt_train_models_chunk";
   "dkt_train_models"; "dkt_memoize_single_recurse"; "dkt_memoize_single";
   "dkt_memoize_chunk"; "dkt_memoize_models"; "dkt_multistep_single";
   "dkt_multistep_single_wrapper"; "dkt_multistep"; "dkt_multistep_ensemble";
   "TrainParams"]%string.

Section Multistep.
Context {W : Type} `{Runtime W}.

(** ['multistep-{}-horizon{}-n{}.pickle'.format(run_name, horizon, n)] and
    [pickle.dump(outdata, f)] into the file opened at the path given. *)
Variable multistep_statfile : TrainParams -> nat -> nat -> string.
Variable pickle_dump : string -> list (list table) -> io W unit.

(** Lines 303-315 of [dkt_multistep]: one worker input
    [([r], ep, [checkpoint_path])] per run and saved epoch. *)
Definition dkt_multistep_worker_inputs (params : TrainParams) (use_mem : bool)
    : list (list Z * Z * list string) :=
  flat_map (fun r =>
    map (fun ep =>
           let checkpoint_path :=
             if negb use_mem
             then path_join (dir_name params) (checkpoint_name params r ep)
             else path_join (dir_name params) (mem_name params r ep) in
           ([r], ep, [checkpoint_path]))
        (saved_epochs params))
    (py_range (num_runs params)).

(** Line 303 and lines 321-325 of [dkt_multistep]: the flat list of the
    workers' outputs is put back into one list per run. *)
Definition dkt_multistep_regroup {A} (num_runs : Z) (saved_epochs : list Z)
    (flat_output : list A) : result (list (list A)) :=
  let outdata : list (list A) := map (fun _ => []) (py_range num_runs) in
  '(outdata, _) ←
    model_training.for_result (py_range num_runs) (outdata, 0%nat)
      (fun '(outdata, ix) r =>
         model_training.for_result saved_epochs (outdata, ix)
           (fun '(outdata, ix) ep =>
              row ← py_getitem_int outdata r;
              x ← py_getitem flat_output ix;
              outdata ← py_setitem outdata (Z.to_nat r) (row ++ [x]);
              Ok (outdata, S ix)));
  Ok outdata.

(** [dkt_multistep(params, n_trajectories, horizon, use_mem)] *)
Definition dkt_multistep (params : TrainParams) (n_trajectories horizon : nat)
    (use_mem : bool) : io W unit :=
  let n_jobs := 8 in
  let worker_inputs := dkt_multistep_worker_inputs params use_mem in
  flat_output ← Parallel n_jobs
    (map (fun '(runs, ep, checkpoints) =>
            model_training.dkt_multistep_single (n_concepts params) n_trajectories
              (model_id params) checkpoints horizon use_mem)
         worker_inputs);
  outdata ← lift (dkt_multistep_regroup (num_runs params) (saved_epochs params)
                    flat_output);
  let statfile := multistep_statfile params horizon n_trajectories in
  let statpath := path_join (dir_name params) statfile in
  pickle_dump statpath outdata.

(** ['fsearchensemble-{}-horizon{}.pickle'.format(run_name, horizon)], and
    the call [f(n_concepts, model_id, checkpoints, horizon, use_mem)] of the
    object [f] found under the name [dkt_forwardsearch_single]. *)
Variable ensemble_statfile : TrainParams -> nat -> string.
Variable call_forward_search :
  pyval -> nat -> string -> list string -> nat -> bool -> io W table.

(** [dkt_multistep_ensemble(trainparams, testparams)], with the fields
    [ensemble_split], [horizon] and [use_mem] of [testparams] as arguments.
    [outer] are the names that the star imports of model_training.py and
    the builtins provide. *)
Definition dkt_multistep_ensemble (outer : env) (trainparams : TrainParams)
    (ensemble_split : Z) (horizon : nat) (use_mem : bool) : io W unit :=
  let globals := map (fun x => (x, PyObj x)) model_training_module_names ++ outer in
  let locals : env :=
    map (fun x => (x, PyObj x))
      ["trainparams"; "testparams"; "fsdata"; "en"; "curr_num_runs"; "ep";
       "curr_checkpoints"; "r"; "checkpoint_name"; "checkpoint_path";
       "mem_name"; "returned_data"; "stat_name"; "stats_path"; "f"]%string in
  fsdata ← for_each (py_range ensemble_split) [] (fun fsdata en =>
    curr_num_runs ←
      lift (py_int_div ((en + 1) * num_runs trainparams) ensemble_split);
    row ← for_each (saved_epochs trainparams) [] (fun row ep =>
      let curr_checkpoints :=
        map (fun r =>
               if negb use_mem
               then path_join (dir_name trainparams)
                      (checkpoint_name trainparams r ep)
               else path_join (dir_name trainparams)
                      (mem_name trainparams r ep))
            (py_range curr_num_runs) in
      dkt_forwardsearch_single ←
        lift (load_name locals globals "dkt_forwardsearch_single");
      returned_data ←
        call_forward_search dkt_forwardsearch_single (n_concepts trainparams)
          (model_id trainparams) curr_checkpoints horizon use_mem;
      mret (row ++ [returned_data]));
    mret (fsdata ++ [row]));
  let stat_name := ensemble_statfile trainparams horizon in
  let stats_path := path_join (dir_name trainparams) stat_name in
  pickle_dump stats_path fsdata.

End Multistep.

(** The list [l] cut into [m] consecutive groups of [size] elements. *)
Fixpoint groups_of {A} (size m : nat) (l : list A) : list (list A) :=
  match m with
  | O => []
  | S m' => take size l :: groups_of size m' (drop size l)
  end.

(** * Properties *)

(** ** Single-concept exercises *)

Lemma visit_from_unmarked (s : Student2.t) (i : nat) (cs : list Z) :
  (forall j, cs !! j <> Some 1) -> Student2.visit_from s i cs = Ok s.
Proof.
  revert i. induction cs as [|x rest IH]; intros i Hno; simpl; [done|].
  destruct (Z.eqb_spec x 1) as [->|_].
  - exfalso. by apply (Hno 0%nat).
  - apply IH. intros j. apply (Hno (S j)).
Qed.

Lemma learned_from_unmarked (k : list Z) (i : nat) (cs : list Z) :
  (forall j, cs !! j <> Some 1) -> learned_all_concepts_in_ex_from k i cs = Ok true.
Proof.
  revert i. induction cs as [|x rest IH]; intros i Hno; simpl; [done|].
  destruct (Z.eqb_spec x 1) as [->|_].
  - exfalso. by apply (Hno 0%nat).
  - apply IH. intros j. apply (Hno (S j)).
Qed.

Lemma tests_only_tail (x : Z) (rest : list Z) (c : nat) :
  tests_only (x :: rest) (S c) -> x <> 1 /\ tests_only rest c.
Proof.
  intros [Hc Hother]. split.
  - intros ->. by apply (Hother 0%nat).
  - split; [exact Hc|]. intros i Hi. apply (Hother (S i)). lia.
Qed.

Lemma tests_only_head (x : Z) (rest : list Z) :
  tests_only (x :: rest) 0 -> x = 1 /\ forall j, rest !! j <> Some 1.
Proof.
  intros [Hc Hother]. split.
  - simpl in Hc. congruence.
  - intros j. by apply (Hother (S j)).
Qed.

(** On an exercise that tests only [c], the loop of [Student2.do_exercise]
    is one execution of its body, at [c]. *)
Lemma visit_from_single (s : Student2.t) (i c : nat) (cs : list Z) :
  tests_only cs c ->
  Student2.visit_from s i cs =
    (v ← py_getitem (Student2.visited s) (i + c);
     k' ← (if v >=? 1 then py_setitem (Student2.knowledge s) (i + c) 1
           else Ok (Student2.knowledge s));
     vis' ← py_setitem (Student2.visited s) (i + c) 1;
     Ok (Student2.mk k' vis')).
Proof.
  revert i c. induction cs as [|x rest IH]; intros i c Hc.
  - destruct Hc as [Hc _]. by destruct c.
  - destruct c as [|c].
    + apply tests_only_head in Hc as [-> Hno]. simpl.
      replace (i + 0)%nat with i by lia.
      destruct (py_getitem (Student2.visited s) i) as [v|e]; simpl; [|done].
      destruct (if v >=? 1 then _ else _) as [k'|e]; simpl; [|done].
      destruct (py_setitem (Student2.visited s) i 1) as [vis'|e]; simpl; [|done].
      by apply visit_from_unmarked.
    + apply tests_only_tail in Hc as [Hx Hc]. simpl.
      destruct (Z.eqb_spec x 1) as [->|_]; [done|].
      rewrite (IH (S i) c Hc). by replace (S i + c)%nat with (i + S c)%nat by lia.
Qed.

Lemma learned_from_single (k : list Z) (i c : nat) (cs : list Z) :
  tests_only cs c ->
  learned_all_concepts_in_ex_from k i cs =
    (x ← py_getitem k (i + c); Ok (negb (x =? 0))).
Proof.
  revert i c. induction cs as [|x rest IH]; intros i c Hc.
  - destruct Hc as [Hc _]. by destruct c.
  - destruct c as [|c].
    + apply tests_only_head in Hc as [-> Hno]. simpl.
      replace (i + 0)%nat with i by lia.
      destruct (py_getitem k i) as [v|e]; simpl; [|done].
      destruct (v =? 0); simpl; [done|]. by apply learned_from_unmarked.
    + apply tests_only_tail in Hc as [Hx Hc]. simpl.
      destruct (Z.eqb_spec x 1) as [->|_]; [done|].
      rewrite (IH (S i) c Hc). by replace (S i + c)%nat with (i + S c)%nat by lia.
Qed.

Lemma py_getitem_Some {A} (l : list A) (i : nat) (x : A) :
  l !! i = Some x -> py_getitem l i = Ok x.
Proof. intros E. unfold py_getitem. by rewrite E. Qed.

Lemma py_setitem_lt {A} (l : list A) (i : nat) (x : A) :
  (i < length l)%nat -> py_setitem l i x = Ok (<[i:=x]> l).
Proof. intros E. unfold py_setitem. by rewrite decide_True. Qed.

(** A first visit: the concept is marked visited and nothing is learned. *)
Lemma Student2_first_visit (concept_tree : ConceptDependencyGraph) (ex : Exercise)
    (s : Student2.t) (c : nat) :
  tests_only (concepts ex) c ->
  fulfilled_prereqs concept_tree (Student2.knowledge s) (concepts ex) = Ok true ->
  Student2.knowledge s !! c = Some 0 ->
  Student2.visited s !! c = Some 0 ->
  Student2.do_exercise concept_tree ex s =
    Ok (false, Student2.mk (Student2.knowledge s) (<[c:=1]> (Student2.visited s))).
Proof.
  intros Hc Hpre Hk Hv. unfold Student2.do_exercise. rewrite Hpre. simpl.
  rewrite (visit_from_single s 0 c _ Hc). simpl.
  rewrite (py_getitem_Some _ _ _ Hv). simpl.
  rewrite py_setitem_lt by (by eapply lookup_lt_Some). simpl.
  unfold learned_all_concepts_in_ex. rewrite (learned_from_single _ 0 c _ Hc). simpl.
  by rewrite (py_getitem_Some _ _ _ Hk).
Qed.

(** A later visit: the concept is mastered in that call, which reports
    success. *)
Lemma Student2_revisit (concept_tree : ConceptDependencyGraph) (ex : Exercise)
    (s : Student2.t) (c : nat) (v : Z) :
  tests_only (concepts ex) c ->
  fulfilled_prereqs concept_tree (Student2.knowledge s) (concepts ex) = Ok true ->
  (c < length (Student2.knowledge s))%nat ->
  Student2.visited s !! c = Some v -> 1 <= v ->
  Student2.do_exercise concept_tree ex s =
    Ok (true, Student2.mk (<[c:=1]> (Student2.knowledge s)) (<[c:=1]> (Student2.visited s))).
Proof.
  intros Hc Hpre Hk Hv Hv1. unfold Student2.do_exercise. rewrite Hpre. simpl.
  rewrite (visit_from_single s 0 c _ Hc). simpl.
  rewrite (py_getitem_Some _ _ _ Hv). simpl.
  replace (v >=? 1) with true by (symmetry; apply Z.geb_le; lia).
  rewrite (py_setitem_lt (Student2.knowledge s) c 1 Hk). simpl.
  rewrite py_setitem_lt by (by eapply lookup_lt_Some). simpl.
  unfold learned_all_concepts_in_ex. rewrite (learned_from_single _ 0 c _ Hc). simpl.
  by rewrite (py_getitem_Some _ _ 1) by (by apply list_lookup_insert_eq).
Qed.

(** C1. Student2 two-try determinism.  For every Student2 state and every
    exercise that tests only concept [c], with the prerequisites fulfilled,
    [knowledge[c] = 0] and [c] not visited before: the first call of
    [do_exercise] returns [False] (0), leaves the knowledge as it was, so
    [knowledge[c] = 0], and sets [visited[c] = 1]; the prerequisites are
    then still fulfilled, and the second call returns [True] (1) and sets
    [knowledge[c] = 1] in that call.  [do_exercise] is a function of the
    state and the exercise: no random draw enters it. *)
Theorem Student2_two_tries (concept_tree : ConceptDependencyGraph) (ex : Exercise)
    (s : Student2.t) (c : nat) :
  tests_only (concepts ex) c ->
  fulfilled_prereqs concept_tree (Student2.knowledge s) (concepts ex) = Ok true ->
  Student2.knowledge s !! c = Some 0 ->
  Student2.visited s !! c = Some 0 ->
  exists s1 s2,
    Student2.do_exercise concept_tree ex s = Ok (false, s1)
    /\ py_int_of_bool false = 0
    /\ Student2.knowledge s1 = Student2.knowledge s
    /\ Student2.knowledge s1 !! c = Some 0
    /\ Student2.visited s1 !! c = Some 1
    /\ fulfilled_prereqs concept_tree (Student2.knowledge s1) (concepts ex) = Ok true
    /\ Student2.do_exercise concept_tree ex s1 = Ok (true, s2)
    /\ py_int_of_bool true = 1
    /\ Student2.knowledge s2 !! c = Some 1.
Proof.
  intros Hc Hpre Hk Hv.
  pose proof (lookup_lt_Some _ _ _ Hk) as Hlk.
  pose proof (lookup_lt_Some _ _ _ Hv) as Hlv.
  eexists _, _. split; [by apply Student2_first_visit|]. simpl.
  split; [done|]. split; [done|]. split; [done|].
  split; [by apply list_lookup_insert_eq|]. split; [done|].
  split.
  - apply (Student2_revisit _ _ _ c 1); simpl; try done.
    by apply list_lookup_insert_eq.
  - split; [done|]. simpl. by apply list_lookup_insert_eq.
Qed.

Lemma Student2_two_tries_witness :
  exists s1 s2,
    Student2.do_exercise example_tree (mkExercise [0; 1; 0])
      (Student2.mk [1; 0; 0] [0; 0; 0]) = Ok (false, s1)
    /\ py_int_of_bool false = 0
    /\ Student2.knowledge s1 = [1; 0; 0]
    /\ Student2.knowledge s1 !! 1%nat = Some 0
    /\ Student2.visited s1 !! 1%nat = Some 1
    /\ fulfilled_prereqs example_tree (Student2.knowledge s1) [0; 1; 0] = Ok true
    /\ Student2.do_exercise example_tree (mkExercise [0; 1; 0]) s1 = Ok (true, s2)
    /\ py_int_of_bool true = 1
    /\ Student2.knowledge s2 !! 1%nat = Some 1.
Proof.
  apply (Student2_two_tries example_tree (mkExercise [0; 1; 0])
           (Student2.mk [1; 0; 0] [0; 0; 0]) 1%nat).
  - split; [reflexivity|]. intros [|[|[|i]]] Hi; vm_compute; congruence.
  - reflexivity.
  - reflexivity.
  - reflexivity.
Defined.

(** ** The exact simulator *)

(** C2. Reward timing of the exact simulator.  For every wrapped student,
    every simulator state, action and stream of draws: when
    [student.do_exercise] on the exercise built from [action.conceptvec]
    returns the observation [ob] and leaves the student in state [s'],
    [advance_simulator] returns [(ob, reward)] where [reward] is the sum of
    the knowledge vector of the student as it was before the call, and the
    simulator then holds [s']; an exception of [do_exercise] leaves
    [advance_simulator] unchanged. *)
Theorem advance_simulator_reward_before_update {S : Type} `{StudentLike S}
    (self : StudentExactSim.t S) (action : StudentAction.t) (g : Rng) :
  StudentExactSim.advance_simulator self action g =
    match sl_do_exercise (StudentExactSim.dgraph self)
            (mkExercise (StudentAction.conceptvec action))
            (StudentExactSim.student self) g with
    | Ok (ob, s', g') =>
        Ok ((ob, np_sum (sl_knowledge (StudentExactSim.student self))),
            StudentExactSim.mk s' (StudentExactSim.dgraph self), g')
    | Raise e => Raise e
    end.
Proof.
  unfold StudentExactSim.advance_simulator.
  destruct (sl_do_exercise _ _ _ g) as [[[ob s'] g']|e]; reflexivity.
Qed.

(** The reward is not the sum after the update: on the second visit of
    concept 1 the student masters it, the knowledge sums to 2 afterwards,
    and the reward of that step is 1. *)
Example advance_simulator_second_visit :
  StudentExactSim.advance_simulator
    (StudentExactSim.mk (Student2.mk [1; 0; 0] [0; 1; 0]) example_tree)
    (StudentAction.mk 1 [0; 1; 0]) example_rng
  = Ok ((1, 1),
        StudentExactSim.mk (Student2.mk [1; 1; 0] [0; 1; 0]) example_tree,
        example_rng).
Proof. reflexivity. Qed.

(** ** The probabilistic student *)

(** [fulfilled_prereqs] is false only when some concept the exercise marks
    has a prerequisite vector whose sum differs from the sum of its product
    with the knowledge: an unmastered prerequisite. *)
Lemma fulfilled_prereqs_from_false (concept_tree : ConceptDependencyGraph)
    (knowledge : list Z) (i : nat) (cs : list Z) :
  fulfilled_prereqs_from concept_tree knowledge i cs = Ok false ->
  exists j prod,
    cs !! j = Some 1
    /\ np_multiply knowledge (get_prereqs concept_tree (i + j)) = Ok prod
    /\ np_sum prod <> np_sum (get_prereqs concept_tree (i + j)).
Proof.
  revert i. induction cs as [|x rest IH]; intros i; simpl; [done|].
  destruct (Z.eqb_spec x 1) as [->|_].
  - destruct (np_multiply knowledge (get_prereqs concept_tree i)) as [prod|e] eqn:E;
      simpl; [|done].
    destruct (Z.eqb_spec (np_sum prod) (np_sum (get_prereqs concept_tree i)))
      as [Heq|Hne]; simpl.
    + intros Hrest. destruct (IH _ Hrest) as (j & p & Hj & Hp & Hs).
      exists (S j), p. by replace (i + S j)%nat with (S i + j)%nat by lia.
    + intros _. exists 0%nat, prod. by replace (i + 0)%nat with i by lia.
  - intros Hrest. destruct (IH _ Hrest) as (j & p & Hj & Hp & Hs).
    exists (S j), p. by replace (i + S j)%nat with (S i + j)%nat by lia.
Qed.

(** C3. Prerequisite gating for the probabilistic student.  For every
    Student state and exercise for which [fulfilled_prereqs] is false,
    [do_exercise] leaves the student, and so its knowledge vector,
    unchanged, consumes exactly one random draw [u], and returns 1 exactly
    when [u <= p_trans_not_satisfied], else 0. *)
Theorem Student_prereq_gating (concept_tree : ConceptDependencyGraph)
    (ex : Exercise) (s : Student.t) (g : Rng) :
  fulfilled_prereqs concept_tree (Student.knowledge s) (concepts ex) = Ok false ->
  exists ob s' g',
    Student.do_exercise concept_tree ex s g = Ok (ob, s', g')
    /\ s' = s
    /\ Student.knowledge s' = Student.knowledge s
    /\ g' = mkRng (draws g) (S (pos g))
    /\ (ob = 1 \/ ob = 0)
    /\ (ob = 1 <-> Qle (draws g (pos g)) (Student.p_trans_not_satisfied s)).
Proof.
  intros Hpre. unfold Student.do_exercise. rewrite Hpre. simpl.
  eexists _, _, _. split; [reflexivity|]. do 3 (split; [reflexivity|]).
  rewrite <- Qle_bool_iff.
  destruct (Qle_bool (draws g (pos g)) (Student.p_trans_not_satisfied s));
    split; [by left| |by right|]; split; intros; done.
Qed.

Lemma Student_prereq_gating_witness :
  exists ob s' g',
    Student.do_exercise example_tree (mkExercise [0; 1; 0])
      (Student.mk (1 # 2) (3 # 10) 1 [0; 0; 0]) example_rng = Ok (ob, s', g')
    /\ s' = Student.mk (1 # 2) (3 # 10) 1 [0; 0; 0]
    /\ Student.knowledge s' = [0; 0; 0]
    /\ g' = mkRng (draws example_rng) 1
    /\ (ob = 1 \/ ob = 0)
    /\ (ob = 1 <-> Qle (1 # 4) (3 # 10)).
Proof.
  apply (Student_prereq_gating example_tree (mkExercise [0; 1; 0])
           (Student.mk (1 # 2) (3 # 10) 1 [0; 0; 0]) example_rng).
  reflexivity.
Defined.

(** ** Actions as keys *)

Lemma same_key_concept (a b : StudentAction.t) :
  same_key a b = true <-> StudentAction.concept a = StudentAction.concept b.
Proof.
  unfold same_key, StudentAction.__hash__, StudentAction.__eq__.
  rewrite andb_diag. apply Z.eqb_eq.
Qed.

Lemma dict_get_set {V} (d : list (StudentAction.t * V)) (a b : StudentAction.t) (x : V) :
  StudentAction.concept a = StudentAction.concept b ->
  dict_get (dict_set d a x) b = Some x.
Proof.
  intros Hab. induction d as [|[k v] rest IH]; simpl.
  - by rewrite (proj2 (same_key_concept a b) Hab).
  - destruct (same_key k a) eqn:Ea; simpl.
    + apply same_key_concept in Ea.
      by rewrite (proj2 (same_key_concept k b)) by congruence.
    + destruct (same_key k b) eqn:Eb; [|exact IH].
      apply same_key_concept in Eb.
      rewrite (proj2 (same_key_concept k a)) in Ea by congruence. done.
Qed.

(** C4. StudentAction key identity.  For all actions [a] and [b], [a == b]
    holds if and only if [a.concept == b.concept]; [hash(a)] is the
    concept index of [a]; two actions with the same concept and any two
    [conceptvec] fields are equal and have the same hash, and a dictionary
    entry stored under one of them is found under the other. *)
Theorem StudentAction_key_identity (a b : StudentAction.t) :
  (StudentAction.__eq__ a b = true <-> StudentAction.concept a = StudentAction.concept b)
  /\ StudentAction.__hash__ a = StudentAction.concept a
  /\ (forall (c : Z) (v w : list Z),
        StudentAction.__eq__ (StudentAction.mk c v) (StudentAction.mk c w) = true
        /\ StudentAction.__hash__ (StudentAction.mk c v)
           = StudentAction.__hash__ (StudentAction.mk c w))
  /\ (forall (V : Type) (d : list (StudentAction.t * V)) (c : Z) (v w : list Z) (x : V),
        dict_get (dict_set d (StudentAction.mk c v) x) (StudentAction.mk c w) = Some x).
Proof.
  split; [apply Z.eqb_eq|]. split; [reflexivity|]. split.
  - intros c v w. split; [apply Z.eqb_refl|reflexivity].
  - intros V d c v w x. by apply dict_get_set.
Qed.

(** ** Creation of the checkpoint directory *)

(** C7, as stated, fails.  [os.makedirs] fails for lack of permission;
    neither version of [dkt_train_models] lets the failure out: both go on
    to train and return normally. *)
Lemma dkt_train_models_swallows_permission_error :
  let R := example_runtime (Raise (OSError EACCES)) in
  let params := example_params 1 in
  fst (os_makedirs (dir_name params) []) = Raise (OSError EACCES)
  /\ OSError EACCES <> OSError EEXIST
  /\ fst (model_training.dkt_train_models params []) = Ok tt
  /\ fst (model_training.dkt_train_models params []) <> Raise (OSError EACCES)
  /\ fst (mcts_tests.dkt_train_models params []) = Ok tt
  /\ fst (mcts_tests.dkt_train_models params []) <> Raise (OSError EACCES).
Proof. vm_compute. repeat split; congruence. Qed.

(** C7, amended.  Every failure of the creation of the checkpoint
    directory is swallowed, whatever its cause: in both versions,
    [dkt_train_models] goes on with the statements that follow the [try],
    from the state in which the call of [os.makedirs] left the outside
    world, and its outcome is the outcome of those statements. *)
Theorem dkt_train_models_swallows_every_failure {W : Type} `{Runtime W}
    (params : TrainParams) (w : W) :
  model_training.dkt_train_models params w
    = model_training.dkt_train_models_body params
        (snd (os_makedirs (dir_name params) w))
  /\ mcts_tests.dkt_train_models params w
    = mcts_tests.dkt_train_models_body params
        (snd (os_makedirs (dir_name params) w)).
Proof. split; reflexivity. Qed.

(** ** The partition of the runs among the workers *)

Lemma chunks_cover (n r : nat) :
  concat (map (fun k : nat =>
                 model_training.chunk_runs (Z.of_nat k * Z.of_nat r, Z.of_nat r))
              (seq 0 n))
  = py_range (Z.of_nat (n * r)).
Proof.
  unfold py_range, model_training.chunk_runs. simpl. rewrite !Nat2Z.id.
  induction n as [|n IH]; [done|].
  rewrite seq_S, map_app, concat_app, IH. simpl. rewrite app_nil_r.
  replace (n * r + r)%nat with (n * r + r)%nat by done.
  replace (r + n * r)%nat with (n * r + r)%nat by lia.
  rewrite seq_app, map_app. f_equal. simpl.
  unfold py_range. rewrite Nat2Z.id.
  replace (seq (n * r) r) with (map (Nat.add (n * r)) (seq 0 r))
    by (pose proof (fmap_add_seq (n * r) 0 r) as E;
        rewrite Nat.add_0_r in E; exact E).
  rewrite !map_map.
  apply map_ext. intros o. lia.
Qed.

Lemma py_range3_exact (n r : Z) :
  0 <= n -> 1 <= r ->
  py_range3 0 (n * r) r
  = Ok (map (fun k : nat => Z.of_nat k * r) (seq 0 (Z.to_nat n))).
Proof.
  intros Hn Hr. unfold py_range3.
  replace (r =? 0) with false by (symmetry; apply Z.eqb_neq; lia).
  replace (0 <? r) with true by (symmetry; apply Z.ltb_lt; lia).
  replace ((n * r - 0 + r - 1) / r) with n; [done|].
  apply Z.div_unique with (r - 1); [lia|ring].
Qed.

(** C8, as stated, fails.  With no run configured the worker count is 0,
    and the remainder [num_runs % n_jobs] is a division by zero: both
    procedures stop with [ZeroDivisionError], which is neither the
    assertion error nor a partition of the runs. *)
Lemma partition_of_zero_runs :
  let R := example_runtime (Ok tt) in
  let params := example_params 0 in
  Z.min 5 (num_runs params) = 0
  /\ model_training.partition_runs params = Raise ZeroDivisionError
  /\ fst (model_training.dkt_train_models params []) = Raise ZeroDivisionError
  /\ fst (model_training.dkt_memoize_models params []) = Raise ZeroDivisionError
  /\ model_training.partition_runs params <> Raise AssertionError
  /\ (forall chunks, model_training.partition_runs params <> Ok chunks).
Proof. vm_compute. repeat split; congruence. Qed.

(** C8, amended.  For at least one configured run: [dkt_train_models] and
    [dkt_memoize_models] compute [n_jobs = min(5, num_runs)]; when
    [num_runs] is not a multiple of [n_jobs] both stop with the assertion
    error, before any worker is started; when it is, the worker calls are
    exactly [n_jobs] chunks [(k * runs_per_job, runs_per_job)], with
    [runs_per_job = num_runs / n_jobs], and the runs of the chunks, taken
    in order, are the run indices [0 .. num_runs - 1], each once. *)
Theorem partition_precondition {W : Type} `{Runtime W} (params : TrainParams) :
  1 <= num_runs params ->
  let n_jobs := Z.min 5 (num_runs params) in
  let runs_per_job := num_runs params / n_jobs in
  let chunks :=
    map (fun k : nat => (Z.of_nat k * runs_per_job, runs_per_job))
        (seq 0 (Z.to_nat n_jobs)) in
  (num_runs params mod n_jobs <> 0 ->
     model_training.partition_runs params = Raise AssertionError
     /\ (forall w, model_training.dkt_train_models params w
                   = (Raise AssertionError, snd (os_makedirs (dir_name params) w)))
     /\ (forall w, model_training.dkt_memoize_models params w
                   = (Raise AssertionError, w)))
  /\ (num_runs params mod n_jobs = 0 ->
     model_training.partition_runs params = Ok (n_jobs, chunks)
     /\ Z.of_nat (length chunks) = n_jobs
     /\ concat (map model_training.chunk_runs chunks) = py_range (num_runs params)
     /\ NoDup (concat (map model_training.chunk_runs chunks))
     /\ (forall w, model_training.dkt_train_models_body params w
           = (losses ← Parallel n_jobs
                (map (fun '(startix, runs) =>
                        model_training._dkt_train_models_chunk params startix runs)
                     chunks);
              np_savez_stats (path_join (dir_name params) (stat_name params))
                (concat (map fst losses)) (concat (map snd losses))
                (saved_epochs params)) w)
     /\ (forall w, model_training.dkt_memoize_models params w
           = (_ ← Parallel n_jobs
                (map (fun '(startix, runs) =>
                        model_training.dkt_memoize_chunk params startix runs)
                     chunks);
              mret tt) w)).
Proof.
  intros Hruns n_jobs runs_per_job chunks.
  assert (Hjobs : 1 <= n_jobs <= 5) by (subst n_jobs; lia).
  assert (Hmod : py_mod (num_runs params) n_jobs = Ok (num_runs params mod n_jobs)).
  { unfold py_mod. by replace (n_jobs =? 0) with false
      by (symmetry; apply Z.eqb_neq; lia). }
  split.
  - intros Hrem.
    assert (Hpart : model_training.partition_runs params = Raise AssertionError).
    { unfold model_training.partition_runs. fold n_jobs. rewrite Hmod. simpl.
      by replace (num_runs params mod n_jobs =? 0) with false
        by (symmetry; by apply Z.eqb_neq). }
    split; [exact Hpart|]. split; intros w.
    + unfold model_training.dkt_train_models, model_training.dkt_train_models_body.
      rewrite Hpart. reflexivity.
    + unfold model_training.dkt_memoize_models. rewrite Hpart. reflexivity.
  - intros Hrem.
    assert (Hdiv : num_runs params = n_jobs * runs_per_job).
    { subst runs_per_job. apply Z.div_exact in Hrem; lia. }
    assert (Hrpj : 1 <= runs_per_job) by nia.
    assert (Hpart : model_training.partition_runs params = Ok (n_jobs, chunks)).
    { unfold model_training.partition_runs. fold n_jobs. rewrite Hmod. simpl.
      rewrite Hrem. simpl. unfold py_int_div.
      replace (n_jobs =? 0) with false by (symmetry; apply Z.eqb_neq; lia).
      simpl. fold runs_per_job. rewrite Hdiv at 1.
      rewrite py_range3_exact by lia. simpl. by rewrite map_map. }
    assert (Hcover : concat (map model_training.chunk_runs chunks)
                     = py_range (num_runs params)).
    { subst chunks. rewrite map_map.
      rewrite <- (Z2Nat.id runs_per_job) by lia.
      rewrite chunks_cover. f_equal. rewrite Hdiv. lia. }
    split; [exact Hpart|]. split.
    { subst chunks. rewrite length_map, length_seq. lia. }
    split; [exact Hcover|]. split.
    { rewrite Hcover. unfold py_range. apply NoDup_fmap_2; [apply _|apply NoDup_seq]. }
    split; intros w.
    + unfold model_training.dkt_train_models_body. rewrite Hpart. reflexivity.
    + unfold model_training.dkt_memoize_models. rewrite Hpart. reflexivity.
Qed.

Lemma partition_precondition_witness :
  let R := example_runtime (Ok tt) in
  let params := example_params 10 in
  model_training.partition_runs params = Ok (5, [(0, 2); (2, 2); (4, 2); (6, 2); (8, 2)])
  /\ concat (map model_training.chunk_runs [(0, 2); (2, 2); (4, 2); (6, 2); (8, 2)])
     = [0; 1; 2; 3; 4; 5; 6; 7; 8; 9].
Proof.
  intros R params.
  destruct (partition_precondition (H := R) params) as [_ Hdiv]; [vm_compute; congruence|].
  destruct Hdiv as (Hpart & _ & Hcover & _); [reflexivity|].
  split; [exact Hpart|exact Hcover].
Defined.

(** ** Undefined names and wrong calls in the drivers *)

Lemma env_lookup_app (e1 e2 : env) (x : string) :
  env_lookup (e1 ++ e2) x
  = match env_lookup e1 x with
    | Some v => Some v
    | None => env_lookup e2 x
    end.
Proof.
  induction e1 as [|[y v] rest IH]; simpl; [done|].
  by destruct (String.eqb y x).
Qed.

Lemma run_tasks_first_raises {W A} (t : io W A) (rest : list (io W A))
    (w w' : W) (e : exn) :
  t w = (Raise e, w') -> run_tasks (t :: rest) w = (Raise e, w').
Proof. intros E. simpl. unfold mbind, io_bind. by rewrite E. Qed.

(** C10. [test_student_exact] never forwards the reward type it
    configures.  The module binds no name [sparse_r]; when the star
    imports and the builtins bind none either, every call of
    [test_student_exact] stops with [NameError] for [sparse_r] while the
    first worker call is being built, leaving the outside world as it
    was: no trajectory has been run. *)
Theorem test_student_exact_undefined_name {W : Type} `{Runtime W} (outer : env) (w : W) :
  env_lookup outer "sparse_r" = None ->
  ~ In "sparse_r"%string mcts_tests.module_names
  /\ mcts_tests.test_student_exact outer w = (Raise (NameError "sparse_r"), w).
Proof.
  intros Houter. split.
  - intros Hin. vm_compute in Hin. intuition congruence.
  - unfold mcts_tests.test_student_exact.
    assert (HD : load_name [] (mcts_tests.module_globals outer) "DENSE"
                 = Ok (PyObj "DENSE")) by reflexivity.
    rewrite HD. unfold Parallel, mbind, io_bind, lift.
    cbn. rewrite Houter. reflexivity.
Qed.

Lemma test_student_exact_undefined_name_witness :
  let R := example_runtime (Ok tt) in
  let outer : env := [("range", PyObj "range"); ("sum", PyObj "sum");
                      ("compute_optimal_actions", PyObj "compute_optimal_actions");
                      ("expected_reward", PyObj "expected_reward")]%string in
  mcts_tests.test_student_exact outer [] = (Raise (NameError "sparse_r"), []).
Proof.
  intros R outer.
  exact (proj2 (test_student_exact_undefined_name (H := R) outer [] eq_refl)).
Defined.

(** C9. [dkt_multistep_single] never returns an error array.  It calls
    [st.Student2(n_concepts, True)], and [Student2.__init__] takes
    [n_concepts] only: whenever the checkpoints have been loaded the call
    stops there with [TypeError], before any trajectory is sampled; with no
    checkpoint to load that is the outcome of every call. *)
Theorem dkt_multistep_single_type_error {W : Type} `{Runtime W}
    (n_concepts n_trajectories : nat) (model_id : string)
    (checkpoints : list string) (horizon : nat) (use_mem : bool) (w : W) :
  (exists e, fst (model_training.dkt_multistep_single n_concepts n_trajectories
                    model_id checkpoints horizon use_mem w) = Raise e)
  /\ model_training.dkt_multistep_single n_concepts n_trajectories
       model_id [] horizon use_mem w = (Raise TypeError, w).
Proof.
  split.
  - unfold model_training.dkt_multistep_single.
    unfold mbind at 1, io_bind at 1.
    match goal with
    | |- context [match ?m w with _ => _ end] => destruct (m w) as [[predict|e] w']
    end.
    + exists TypeError. reflexivity.
    + exists e. reflexivity.
  - destruct use_mem; reflexivity.
Qed.

(** ** Reduction of the workers' sums *)

Section Sums.
Context {F : Type} `{Number F} (R : relation F).
Context `{!Equivalence R} `{!Proper (R ==> R ==> R) num_add}.
Hypothesis assoc :
  forall a b c, R (num_add (num_add a b) c) (num_add a (num_add b c)).
Hypothesis zero_l : forall a, R (num_add num_zero a) a.
Hypothesis zero_r : forall a, R (num_add a num_zero) a.





End Sums.



Lemma Forall2_eq_map {A B} (f : B -> A) (xs : list A) (ys : list B) :
  Forall2 (fun x y => x = f y) xs ys -> xs = map f ys.
Proof. induction 1 as [|x y xs ys -> _ IH]; simpl; [done|by rewrite IH]. Qed.

Section ChunkReduction.
Context {W F : Type} `{Runtime W} `{Number F}.
Variable test_dkt_single :
  ConceptDependencyGraph -> Student2.t -> nat -> nat -> DynamicsModel -> pyval
  -> bool -> io W (list Z * F).
Variables (dgraph : ConceptDependencyGraph) (student : Student2.t)
          (model_id : string) (chkpt : option string) (horizon n_rollouts : nat)
          (use_greedy : bool) (r_type : pyval) (use_real : bool).




End ChunkReduction.







(** On that run each of the six trajectories ends with half of the concepts
    mastered and a best q of 3/2, and these are the two averages. *)
Example test_dkt_jobs_run :
  match fst (mcts_tests.test_dkt_jobs (H := example_runtime (Ok tt))
               constant_search 2 3 "test2_model_small" 50 (PyObj "DENSE") true
               None []) with
  | Ok (avg_acc, avg_best_q) => (avg_acc == 1 # 2)%Q /\ (avg_best_q == 3 # 2)%Q
  | Raise _ => False
  end.
Proof. vm_compute. split; reflexivity. Qed.

(** ** Memoization *)

Lemma allocate_shape (n_concepts horizon : nat) :
  length (model_training.allocate_mem_arrays n_concepts horizon) = (horizon + 1)%nat
  /\ forall i tbl,
       model_training.allocate_mem_arrays n_concepts horizon !! i = Some tbl ->
       length tbl = ((2 * n_concepts) ^ i)%nat
       /\ forall j row, tbl !! j = Some row -> length row = n_concepts.
Proof.
  unfold model_training.allocate_mem_arrays. split.
  - by rewrite length_map, length_seq.
  - intros k tbl Hk.
    change (map ?f ?l) with (f <$> l) in Hk.
    apply list_lookup_fmap_Some in Hk as (i & -> & Hi).
    apply lookup_seq in Hi as [-> _]. simpl.
    unfold np_zeros2, num_histories. split.
    + rewrite length_replicate. by rewrite (Nat.mul_comm n_concepts 2).
    + intros j row Hrow. apply lookup_replicate in Hrow as [-> _].
      apply length_replicate.
Qed.

Lemma no_make_student_action (st_star : env) :
  env_lookup st_star "make_student_action" = None ->
  module_getattr student_module_names st_star "make_student_action"
  = Raise (AttributeError "make_student_action").
Proof.
  intros Hstar. unfold module_getattr. rewrite env_lookup_app.
  cbn. by rewrite Hstar.
Qed.

(** Whenever the body of the loops is reached, the recursion stops at
    the attribute lookup of its first iteration. *)
Lemma recurse_attribute_error (st_star : env)
    (call_st : pyval -> nat -> nat -> result StudentAction.t)
    (depth n_concepts : nat) (dkt : RnnStudentSim.t)
    (horizon step history_ix : nat) (mem_arrays : list table) :
  env_lookup st_star "make_student_action" = None ->
  (1 <= n_concepts)%nat -> (step <= horizon)%nat -> (1 <= depth)%nat ->
  model_training.dkt_memoize_single_recurse_depth st_star call_st depth
    n_concepts dkt horizon step history_ix mem_arrays
  = Raise (AttributeError "make_student_action").
Proof.
  intros Hstar Hn Hstep Hdepth.
  destruct depth as [|depth]; [lia|]. destruct n_concepts as [|n]; [lia|].
  cbn [model_training.dkt_memoize_single_recurse_depth].
  rewrite decide_False by lia.
  simpl seq. cbn [model_training.for_result]. cbv zeta.
  by rewrite (no_make_student_action st_star Hstar).
Qed.

(** [dkt_memoize_single] then stops right after loading the model. *)
Lemma dkt_memoize_single_fails {W : Type} `{Runtime W}
    (n_concepts : nat) (model_id checkpoint : string) (horizon : nat)
    (outfile : string) (w : W) :
  (1 <= n_concepts)%nat -> (1 <= horizon)%nat ->
  env_lookup student_star_names "make_student_action" = None ->
  model_training.dkt_memoize_single n_concepts model_id checkpoint horizon
    outfile w
  = match load_dynamics_model model_id horizon checkpoint w with
    | (Ok _, w') => (Raise (AttributeError "make_student_action"), w')
    | (Raise e, w') => (Raise e, w')
    end.
Proof.
  intros Hn Hh Hstar.
  unfold model_training.dkt_memoize_single.
  unfold mbind at 1, io_bind at 1.
  destruct (load_dynamics_model model_id horizon checkpoint w) as [[model|e] w'];
    [|reflexivity].
  unfold mbind at 1, io_bind at 1, lift, model_training.memoize,
    model_training.dkt_memoize_single_recurse.
  by rewrite recurse_attribute_error by (done || lia).
Qed.

(** C5. The memoization does not take place.  [dkt_memoize_single]
    allocates [horizon + 1] tables, table [i] with [(2 * n_concepts)^i]
    rows of width [n_concepts]; but the recursion evaluates
    [st.make_student_action], and student.py defines no such name.  Unless
    the star import of student.py binds it, for every [n_concepts >= 1]
    and [horizon >= 1] the recursion stops with [AttributeError] in its
    first iteration, before any row is assigned, from whatever step within
    the horizon, history index and tables it is started; and
    [dkt_memoize_single] stops with that error right after loading the
    model, so that no table is saved. *)
Theorem memoization_attribute_error {W : Type} `{Runtime W}
    (n_concepts : nat) (model_id checkpoint : string) (horizon : nat)
    (outfile : string) (w : W) :
  (1 <= n_concepts)%nat -> (1 <= horizon)%nat ->
  env_lookup student_star_names "make_student_action" = None ->
  ~ In "make_student_action"%string student_module_names
  /\ length (model_training.allocate_mem_arrays n_concepts horizon)
     = (horizon + 1)%nat
  /\ (forall i tbl,
        model_training.allocate_mem_arrays n_concepts horizon !! i = Some tbl ->
        length tbl = ((2 * n_concepts) ^ i)%nat
        /\ forall j row, tbl !! j = Some row -> length row = n_concepts)
  /\ (forall dkt step history_ix mem_arrays,
        (step <= horizon)%nat ->
        model_training.dkt_memoize_single_recurse student_star_names
          call_student_function n_concepts dkt horizon step history_ix mem_arrays
        = Raise (AttributeError "make_student_action"))
  /\ model_training.dkt_memoize_single n_concepts model_id checkpoint horizon
       outfile w
     = match load_dynamics_model model_id horizon checkpoint w with
       | (Ok _, w') => (Raise (AttributeError "make_student_action"), w')
       | (Raise e, w') => (Raise e, w')
       end.
Proof.
  intros Hn Hh Hstar.
  assert (Hrec : forall dkt step history_ix mem_arrays,
             (step <= horizon)%nat ->
             model_training.dkt_memoize_single_recurse student_star_names
               call_student_function n_concepts dkt horizon step history_ix
               mem_arrays
             = Raise (AttributeError "make_student_action")).
  { intros dkt step history_ix mem_arrays Hstep.
    unfold model_training.dkt_memoize_single_recurse.
    apply recurse_attribute_error; [exact Hstar|lia..]. }
  split.
  { intros Hin. vm_compute in Hin. intuition congruence. }
  destruct (allocate_shape n_concepts horizon) as [Hlen Hshape].
  split; [exact Hlen|]. split; [exact Hshape|]. split; [exact Hrec|].
  by apply dkt_memoize_single_fails.
Qed.

Lemma memoization_attribute_error_witness :
  model_training.dkt_memoize_single (H := example_runtime (Ok tt)) 4
    "test2_model_small" "checkpoint" 6 "mem" []
  = (Raise (AttributeError "make_student_action"), ["load_model"%string]).
Proof.
  pose proof (memoization_attribute_error (H := example_runtime (Ok tt)) 4
                "test2_model_small" "checkpoint" 6 "mem" []) as Hbug.
  destruct Hbug as (_ & _ & _ & _ & Hsingle).
  - lia.
  - lia.
  - reflexivity.
  - rewrite Hsingle. reflexivity.
Defined.

(** * Further properties *)

(** ** The checks of the students *)

Lemma np_sum_product_le (k p : list Z) :
  binary k -> binary p -> length k = length p ->
  np_sum (zip_with Z.mul k p) <= np_sum p.
Proof.
  intros Hk. revert p. induction Hk as [|x k Hx Hk IH]; intros p Hp Hlen.
  - destruct p; [simpl; lia|done].
  - destruct Hp as [|y p Hy Hp]; [done|]. simpl in *.
    specialize (IH p Hp ltac:(lia)). destruct Hx, Hy; subst; lia.
Qed.

(** On vectors of flags, the test [np.sum(np.multiply(knowledge, prereqs))
    == np.sum(prereqs)] holds exactly when every prerequisite is
    mastered. *)
Lemma np_sum_product_eq (k p : list Z) :
  binary k -> binary p -> length k = length p ->
  np_sum (zip_with Z.mul k p) = np_sum p <-> prereqs_mastered k p.
Proof.
  intros Hk. revert p. induction Hk as [|x k Hx Hk IH]; intros p Hp Hlen.
  - destruct p; [|done]. split; [|done]. intros _ j Hj. by destruct j.
  - destruct Hp as [|y p Hy Hp]; [done|]. simpl in Hlen.
    assert (Hlen' : length k = length p) by lia.
    pose proof (np_sum_product_le k p Hk Hp Hlen') as Hle.
    specialize (IH p Hp Hlen'). simpl. split.
    + intros Hsum [|j] Hj; simpl in *.
      * injection Hj as ->. destruct Hx as [->| ->]; [lia|done].
      * apply (proj1 IH); [|done]. destruct Hx, Hy; subst; lia.
    + intros Hm.
      assert (Htail : prereqs_mastered k p) by (intros j Hj; apply (Hm (S j) Hj)).
      apply IH in Htail. rewrite Htail.
      destruct Hy as [->| ->]; [lia|].
      specialize (Hm 0%nat eq_refl). simpl in Hm. injection Hm as ->. lia.
Qed.

Lemma fulfilled_prereqs_from_meaning (concept_tree : ConceptDependencyGraph)
    (knowledge : list Z) (cs : list Z) :
  binary knowledge ->
  (forall i, binary (get_prereqs concept_tree i)
             /\ length (get_prereqs concept_tree i) = length knowledge) ->
  forall i, exists b,
    fulfilled_prereqs_from concept_tree knowledge i cs = Ok b
    /\ (b = true <->
        forall j, cs !! j = Some 1 ->
          prereqs_mastered knowledge (get_prereqs concept_tree (i + j))).
Proof.
  intros Hk Htree. induction cs as [|x rest IH]; intros i.
  - exists true. split; [done|]. split; [|done]. intros _ j Hj. by destruct j.
  - destruct (IH (S i)) as (b & Hb & Hmean). simpl.
    destruct (Htree i) as [Hp Hlen].
    assert (Hshift : (forall j, rest !! j = Some 1 ->
                        prereqs_mastered knowledge (get_prereqs concept_tree (S i + j)))
                     <-> (forall j, (x :: rest) !! S j = Some 1 ->
                            prereqs_mastered knowledge (get_prereqs concept_tree (i + S j)))).
    { split; intros Hall j Hj; specialize (Hall j Hj);
        by replace (i + S j)%nat with (S i + j)%nat in * by lia. }
    destruct (Z.eqb_spec x 1) as [->|Hx].
    + unfold np_multiply. rewrite decide_True by done. simpl.
      destruct (Z.eqb_spec (np_sum (zip_with Z.mul knowledge (get_prereqs concept_tree i)))
                           (np_sum (get_prereqs concept_tree i))) as [Heq|Hne]; simpl.
      * exists b. split; [done|]. rewrite Hmean, Hshift. split.
        { intros Hall [|j] Hj; [|by apply Hall].
          replace (i + 0)%nat with i by lia. by apply np_sum_product_eq. }
        { intros Hall j Hj. by apply Hall. }
      * exists false. split; [done|]. split; [done|]. intros Hall. exfalso.
        apply Hne. apply np_sum_product_eq; try done.
        specialize (Hall 0%nat eq_refl). by replace (i + 0)%nat with i in Hall by lia.
    + exists b. split; [done|]. rewrite Hmean, Hshift. split.
      * intros Hall [|j] Hj; [|by apply Hall]. simpl in Hj. congruence.
      * intros Hall j Hj. by apply Hall.
Qed.

(** X1. [fulfilled_prereqs] means what its name says on vectors of flags:
    when the knowledge and every prerequisite vector hold only 0 and 1 and
    have the same length, it returns, and it returns [True] exactly when,
    for every concept the exercise marks, every prerequisite of that
    concept is mastered. *)
Theorem fulfilled_prereqs_meaning (concept_tree : ConceptDependencyGraph)
    (knowledge concepts : list Z) :
  binary knowledge ->
  (forall i, binary (get_prereqs concept_tree i)
             /\ length (get_prereqs concept_tree i) = length knowledge) ->
  exists b,
    fulfilled_prereqs concept_tree knowledge concepts = Ok b
    /\ (b = true <->
        forall i, concepts !! i = Some 1 ->
          prereqs_mastered knowledge (get_prereqs concept_tree i)).
Proof.
  intros Hk Htree.
  destruct (fulfilled_prereqs_from_meaning concept_tree knowledge concepts Hk Htree 0)
    as (b & Hb & Hmean).
  exists b. split; [exact Hb|exact Hmean].
Qed.

Ltac solve_binary :=
  unfold binary; repeat (constructor; [lia|]); constructor.

Lemma example_tree_binary (i : nat) :
  binary (get_prereqs example_tree i)
  /\ length (get_prereqs example_tree i) = 3%nat.
Proof.
  simpl. destruct (decide (i = 1%nat)); split; try reflexivity; solve_binary.
Qed.

Lemma fulfilled_prereqs_meaning_witness :
  exists b,
    fulfilled_prereqs example_tree [1; 0; 0] [0; 1; 0] = Ok b
    /\ (b = true <->
        forall i, [0; 1; 0] !! i = Some 1 ->
          prereqs_mastered [1; 0; 0] (get_prereqs example_tree i)).
Proof.
  apply (fulfilled_prereqs_meaning example_tree [1; 0; 0] [0; 1; 0]).
  - solve_binary.
  - intros i. apply example_tree_binary.
Defined.

(** The test is on sums: a knowledge entry other than 0 and 1 can make up
    for a missing prerequisite. *)
Example fulfilled_prereqs_not_binary :
  fulfilled_prereqs
    {| cdg_n := 3; get_prereqs := fun _ => [1; 1; 0] |} [2; 0; 0] [0; 0; 1]
  = Ok true.
Proof. reflexivity. Qed.

Lemma learned_from_meaning (knowledge : list Z) (cs : list Z) :
  forall c, (c + length cs <= length knowledge)%nat ->
    exists b,
      learned_all_concepts_in_ex_from knowledge c cs = Ok b
      /\ (b = true <->
          forall i, cs !! i = Some 1 -> knowledge !! (c + i)%nat <> Some 0).
Proof.
  induction cs as [|x rest IH]; intros c Hlen.
  - exists true. split; [done|]. split; [|done]. intros _ i Hi. by destruct i.
  - simpl in Hlen. destruct (IH (S c)) as (b & Hb & Hmean); [lia|]. simpl.
    assert (Hshift : (forall i, rest !! i = Some 1 -> knowledge !! (S c + i)%nat <> Some 0)
                     <-> (forall i, (x :: rest) !! S i = Some 1 ->
                            knowledge !! (c + S i)%nat <> Some 0)).
    { split; intros Hall i Hi; specialize (Hall i Hi);
        by replace (c + S i)%nat with (S c + i)%nat in * by lia. }
    destruct (Z.eqb_spec x 1) as [->|Hx].
    + destruct (lookup_lt_is_Some_2 knowledge c) as [k Hk]; [lia|].
      rewrite (py_getitem_Some _ _ _ Hk). simpl.
      destruct (Z.eqb_spec k 0) as [->|Hk0].
      * exists false. split; [done|]. split; [done|]. intros Hall. exfalso.
        apply (Hall 0%nat eq_refl). by replace (c + 0)%nat with c by lia.
      * exists b. split; [done|]. rewrite Hmean, Hshift. split.
        { intros Hall [|i] Hi; [|by apply Hall].
          replace (c + 0)%nat with c by lia. rewrite Hk. congruence. }
        { intros Hall i Hi. by apply Hall. }
    + exists b. split; [done|]. rewrite Hmean, Hshift. split.
      * intros Hall [|i] Hi; [|by apply Hall]. simpl in Hi. congruence.
      * intros Hall i Hi. by apply Hall.
Qed.

(** X2. [learned_all_concepts_in_ex] on an exercise vector no longer than
    the knowledge vector returns, and returns [True] exactly when no marked
    concept has knowledge 0.  The comparison is with 0, not with 1: any
    other knowledge value counts as learned. *)
Theorem learned_all_concepts_meaning (knowledge concepts : list Z) :
  (length concepts <= length knowledge)%nat ->
  exists b,
    learned_all_concepts_in_ex knowledge concepts = Ok b
    /\ (b = true <->
        forall i, concepts !! i = Some 1 -> knowledge !! i <> Some 0).
Proof.
  intros Hlen.
  destruct (learned_from_meaning knowledge concepts 0 ltac:(simpl; lia))
    as (b & Hb & Hmean).
  exists b. split; [exact Hb|exact Hmean].
Qed.

Lemma learned_all_concepts_meaning_witness :
  exists b,
    learned_all_concepts_in_ex [1; 0; 2] [1; 0; 1] = Ok b
    /\ (b = true <->
        forall i, [1; 0; 1] !! i = Some 1 -> [1; 0; 2] !! i <> Some 0).
Proof.
  apply (learned_all_concepts_meaning [1; 0; 2] [1; 0; 1]). simpl. lia.
Defined.

(** ** The deterministic student, for any exercise *)

(** What the loop of [Student2.do_exercise] does to each index: an index it
    marks gets its visit mark, and is mastered if it had one already; any
    other index is left alone. *)
Lemma visit_from_spec (cs : list Z) :
  forall c s s', Student2.visit_from s c cs = Ok s' ->
    length (Student2.knowledge s') = length (Student2.knowledge s)
    /\ length (Student2.visited s') = length (Student2.visited s)
    /\ forall i,
         ((c <= i)%nat -> cs !! (i - c)%nat = Some 1 ->
            Student2.visited s' !! i = Some 1
            /\ exists v, Student2.visited s !! i = Some v
                 /\ ((1 <= v /\ Student2.knowledge s' !! i = Some 1)
                     \/ (v < 1 /\ Student2.knowledge s' !! i
                                  = Student2.knowledge s !! i)))
         /\ ((i < c)%nat \/ cs !! (i - c)%nat <> Some 1 ->
               Student2.knowledge s' !! i = Student2.knowledge s !! i
               /\ Student2.visited s' !! i = Student2.visited s !! i).
Proof.
  induction cs as [|x rest IH]; intros c s s' Hrun.
  - simpl in Hrun. injection Hrun as <-. repeat split; done.
  - simpl in Hrun. destruct (Z.eqb_spec x 1) as [->|Hx].
    + unfold py_getitem in Hrun.
      destruct (Student2.visited s !! c) as [v|] eqn:Ev; [|done]. simpl in Hrun.
      pose proof (lookup_lt_Some _ _ _ Ev) as Hcv.
      set (k1 := if v >=? 1 then <[c:=1]> (Student2.knowledge s)
                 else Student2.knowledge s).
      assert (Hk1 : (if v >=? 1 then py_setitem (Student2.knowledge s) c 1
                     else Ok (Student2.knowledge s)) = Ok k1
                    \/ exists e, (if v >=? 1 then py_setitem (Student2.knowledge s) c 1
                                  else Ok (Student2.knowledge s)) = Raise e).
      { subst k1. destruct (v >=? 1); [|by left]. unfold py_setitem.
        destruct (decide (c < length (Student2.knowledge s))%nat); [by left|].
        right. by eexists. }
      destruct Hk1 as [Hk1|[e He]]; [|by rewrite He in Hrun].
      rewrite Hk1 in Hrun. simpl in Hrun.
      rewrite py_setitem_lt in Hrun by done. simpl in Hrun.
      destruct (IH _ _ _ Hrun) as (Hlk & Hlv & Heff). simpl in Hlk, Hlv, Heff.
      assert (Hk1len : length k1 = length (Student2.knowledge s)).
      { subst k1. destruct (v >=? 1); [apply length_insert|done]. }
      assert (Hk1ne : forall i, i <> c -> k1 !! i = Student2.knowledge s !! i).
      { intros i Hi. subst k1. destruct (v >=? 1); [|done].
        by apply list_lookup_insert_ne. }
      split; [lia|]. split; [by rewrite Hlv, length_insert|].
      intros i. destruct (Heff i) as [Hmark Hframe]. split.
      * intros Hci Hi.
        destruct (decide (i = c)) as [->|Hne].
        { destruct Hframe as [Hk Hv]; [left; lia|].
          rewrite Hv, list_lookup_insert_eq by done. split; [done|].
          exists v. split; [done|]. rewrite Hk. subst k1.
          destruct (Z.geb_spec v 1) as [Hge|Hlt].
          - left. split; [lia|]. apply list_lookup_insert_eq.
            unfold py_setitem in Hk1. by destruct (decide (c < _)%nat).
          - right. split; [lia|done]. }
        { replace (i - c)%nat with (S (i - S c)) in Hi by lia. simpl in Hi.
          destruct Hmark as [Hv (v' & Hv' & Hcase)]; [lia|done|].
          split; [done|]. exists v'.
          rewrite list_lookup_insert_ne in Hv' by done. split; [done|].
          by rewrite (Hk1ne i Hne) in Hcase. }
      * intros Hi.
        assert (Hne : i <> c).
        { intros ->. destruct Hi as [Hi|Hi]; [lia|].
          apply Hi. by rewrite Nat.sub_diag. }
        destruct Hframe as [Hk Hv].
        { destruct Hi as [Hi|Hi]; [left; lia|].
          destruct (decide (i < S c)%nat); [by left|right].
          replace (i - c)%nat with (S (i - S c)) in Hi by lia. done. }
        rewrite Hk, Hv, (Hk1ne i Hne), list_lookup_insert_ne by done. done.
    + destruct (IH _ _ _ Hrun) as (Hlk & Hlv & Heff).
      split; [done|]. split; [done|].
      intros i. destruct (Heff i) as [Hmark Hframe]. split.
      * intros Hci Hi.
        destruct (decide (i = c)) as [->|Hne].
        { rewrite Nat.sub_diag in Hi. simpl in Hi. congruence. }
        replace (i - c)%nat with (S (i - S c)) in Hi by lia.
        apply Hmark; [lia|done].
      * intros Hi. apply Hframe.
        destruct (decide (i < S c)%nat); [by left|right].
        destruct Hi as [Hi|Hi]; [lia|].
        replace (i - c)%nat with (S (i - S c)) in Hi by lia. done.
Qed.

Lemma Student2_do_exercise_inv (concept_tree : ConceptDependencyGraph)
    (ex : Exercise) (s s' : Student2.t) (r : bool) :
  Student2.do_exercise concept_tree ex s = Ok (r, s') ->
  exists ok,
    fulfilled_prereqs concept_tree (Student2.knowledge s) (concepts ex) = Ok ok
    /\ (if ok : bool then Student2.visit_from s 0 (concepts ex) = Ok s' else s' = s)
    /\ learned_all_concepts_in_ex (Student2.knowledge s') (concepts ex) = Ok r.
Proof.
  unfold Student2.do_exercise. intros Hrun.
  destruct (fulfilled_prereqs _ _ _) as [ok|e]; [|done]. simpl in Hrun.
  exists ok. split; [done|].
  destruct ok.
  - destruct (Student2.visit_from s 0 (concepts ex)) as [s1|e]; [|done].
    simpl in Hrun.
    destruct (learned_all_concepts_in_ex _ _) as [r1|e] eqn:El; [|done].
    simpl in Hrun. injection Hrun as <- <-. done.
  - simpl in Hrun.
    destruct (learned_all_concepts_in_ex _ _) as [r1|e] eqn:El; [|done].
    simpl in Hrun. injection Hrun as <- <-. done.
Qed.

(** What one call of [Student2.do_exercise] can change. *)
Lemma Student2_do_exercise_grows (concept_tree : ConceptDependencyGraph)
    (ex : Exercise) (s s' : Student2.t) (r : bool) :
  Student2.do_exercise concept_tree ex s = Ok (r, s') ->
  length (Student2.knowledge s') = length (Student2.knowledge s)
  /\ length (Student2.visited s') = length (Student2.visited s)
  /\ forall i,
       (concepts ex !! i <> Some 1 ->
          Student2.knowledge s' !! i = Student2.knowledge s !! i
          /\ Student2.visited s' !! i = Student2.visited s !! i)
       /\ (Student2.knowledge s' !! i = Student2.knowledge s !! i
           \/ Student2.knowledge s' !! i = Some 1)
       /\ (Student2.visited s' !! i = Student2.visited s !! i
           \/ Student2.visited s' !! i = Some 1).
Proof.
  intros Hrun. apply Student2_do_exercise_inv in Hrun as (ok & _ & Hvisit & _).
  destruct ok; [|subst s'; repeat split; by left].
  apply visit_from_spec in Hvisit as (Hlk & Hlv & Heff).
  split; [done|]. split; [done|]. intros i.
  destruct (Heff i) as [Hmark Hframe]. rewrite Nat.sub_0_r in Hmark, Hframe.
  split; [intros Hi; apply Hframe; by right|].
  destruct (decide (concepts ex !! i = Some 1)) as [Hi|Hi].
  - destruct Hmark as [Hv (v & _ & [[_ Hk]|[_ Hk]])]; [lia|done| |];
      split; try (by right); try (by left).
  - destruct Hframe as [Hk Hv]; [by right|]. split; by left.
Qed.

(** X3. [Student2.do_exercise] never takes anything back.  Whenever it
    returns, for any exercise: the two vectors keep their lengths; an index
    the exercise does not mark keeps its knowledge and its visit mark; and
    at every index the knowledge and the visit mark are what they were or
    have become 1. *)
Theorem Student2_do_exercise_only_adds (concept_tree : ConceptDependencyGraph)
    (ex : Exercise) (s s' : Student2.t) (r : bool) :
  Student2.do_exercise concept_tree ex s = Ok (r, s') ->
  length (Student2.knowledge s') = length (Student2.knowledge s)
  /\ length (Student2.visited s') = length (Student2.visited s)
  /\ forall i,
       (concepts ex !! i <> Some 1 ->
          Student2.knowledge s' !! i = Student2.knowledge s !! i
          /\ Student2.visited s' !! i = Student2.visited s !! i)
       /\ (Student2.knowledge s' !! i = Student2.knowledge s !! i
           \/ Student2.knowledge s' !! i = Some 1)
       /\ (Student2.visited s' !! i = Student2.visited s !! i
           \/ Student2.visited s' !! i = Some 1).
Proof. apply Student2_do_exercise_grows. Qed.

Lemma Student2_do_exercise_only_adds_witness :
  length (Student2.knowledge (Student2.mk [1; 1; 0] [0; 1; 0])) = 3%nat
  /\ length (Student2.visited (Student2.mk [1; 1; 0] [0; 1; 0])) = 3%nat
  /\ forall i,
       ([0; 1; 0] !! i <> Some 1 ->
          [1; 1; 0] !! i = [1; 0; 0] !! i /\ [0; 1; 0] !! i = [0; 1; 0] !! i)
       /\ ([1; 1; 0] !! i = [1; 0; 0] !! i \/ [1; 1; 0] !! i = Some 1)
       /\ ([0; 1; 0] !! i = [0; 1; 0] !! i \/ [0; 1; 0] !! i = Some 1).
Proof.
  apply (Student2_do_exercise_only_adds example_tree (mkExercise [0; 1; 0])
           (Student2.mk [1; 0; 0] [0; 1; 0]) (Student2.mk [1; 1; 0] [0; 1; 0]) true).
  reflexivity.
Defined.

(** X4. One call never masters a concept that has no visit mark yet,
    whatever the exercise: when [visited[c] < 1] before a call that returns,
    [knowledge[c]] is the same after it. *)
Theorem Student2_no_mastery_on_first_visit (concept_tree : ConceptDependencyGraph)
    (ex : Exercise) (s s' : Student2.t) (r : bool) (c : nat) (v : Z) :
  Student2.do_exercise concept_tree ex s = Ok (r, s') ->
  Student2.visited s !! c = Some v -> v < 1 ->
  Student2.knowledge s' !! c = Student2.knowledge s !! c.
Proof.
  intros Hrun Hv Hlt. apply Student2_do_exercise_inv in Hrun as (ok & _ & Hvisit & _).
  destruct ok; [|by subst s'].
  apply visit_from_spec in Hvisit as (_ & _ & Heff).
  destruct (Heff c) as [Hmark Hframe]. rewrite Nat.sub_0_r in Hmark, Hframe.
  destruct (decide (concepts ex !! c = Some 1)) as [Hc|Hc].
  - destruct Hmark as [_ (v' & Hv' & [[Hge _]|[_ Hk]])]; [lia|done| |done].
    rewrite Hv in Hv'. injection Hv' as <-. lia.
  - by destruct Hframe as [Hk _]; [right|].
Qed.

Lemma Student2_no_mastery_on_first_visit_witness :
  Student2.knowledge (Student2.mk [1; 0; 0] [0; 1; 1]) !! 2%nat
  = Student2.knowledge (Student2.mk [1; 0; 0] [0; 0; 0]) !! 2%nat.
Proof.
  apply (Student2_no_mastery_on_first_visit
           {| cdg_n := 3; get_prereqs := fun _ => [1; 0; 0] |}
           (mkExercise [0; 1; 1]) (Student2.mk [1; 0; 0] [0; 0; 0])
           (Student2.mk [1; 0; 0] [0; 1; 1]) false 2%nat 0).
  - reflexivity.
  - reflexivity.
  - lia.
Defined.

(** X5. A mastered concept stays as it is: on an exercise that tests only
    [c], with the prerequisites fulfilled, [knowledge[c] = 1] and
    [visited[c] = 1], [do_exercise] returns [True] and leaves the student
    exactly as it was, however often it is repeated. *)
Theorem Student2_mastered_is_stable (concept_tree : ConceptDependencyGraph)
    (ex : Exercise) (s : Student2.t) (c : nat) :
  tests_only (concepts ex) c ->
  fulfilled_prereqs concept_tree (Student2.knowledge s) (concepts ex) = Ok true ->
  Student2.knowledge s !! c = Some 1 ->
  Student2.visited s !! c = Some 1 ->
  Student2.do_exercise concept_tree ex s = Ok (true, s).
Proof.
  intros Hc Hpre Hk Hv.
  rewrite (Student2_revisit concept_tree ex s c 1 Hc Hpre); try done.
  - rewrite !list_insert_id by done. by destruct s.
  - by eapply lookup_lt_Some.
Qed.

Lemma Student2_mastered_is_stable_witness :
  Student2.do_exercise example_tree (mkExercise [0; 1; 0])
    (Student2.mk [1; 1; 0] [0; 1; 0])
  = Ok (true, Student2.mk [1; 1; 0] [0; 1; 0]).
Proof.
  apply (Student2_mastered_is_stable example_tree (mkExercise [0; 1; 0])
           (Student2.mk [1; 1; 0] [0; 1; 0]) 1%nat).
  - split; [reflexivity|]. intros [|[|[|i]]] Hi; vm_compute; congruence.
  - reflexivity.
  - reflexivity.
  - reflexivity.
Defined.

(** X6. In a [Student2] that starts from [Student2(n_concepts)] and is only
    changed by [do_exercise], every mastered concept has been visited: the
    property holds at the start and every call that returns keeps it. *)
Theorem Student2_mastered_were_visited (concept_tree : ConceptDependencyGraph)
    (ex : Exercise) (s s' : Student2.t) (r : bool) (n_concepts : nat) :
  mastered_were_visited (Student2.init n_concepts)
  /\ (mastered_were_visited s ->
      Student2.do_exercise concept_tree ex s = Ok (r, s') ->
      mastered_were_visited s').
Proof.
  split.
  - intros i Hi. simpl in Hi. apply lookup_replicate in Hi as [Hi _]. done.
  - intros Hinv Hrun i Hi.
    apply Student2_do_exercise_inv in Hrun as (ok & _ & Hvisit & _).
    destruct ok; [|subst s'; by apply Hinv].
    apply visit_from_spec in Hvisit as (_ & _ & Heff).
    destruct (Heff i) as [Hmark Hframe]. rewrite Nat.sub_0_r in Hmark, Hframe.
    destruct (decide (concepts ex !! i = Some 1)) as [Hc|Hc].
    + destruct Hmark as [Hv _]; [lia|done|]. exists 1. split; [done|lia].
    + destruct Hframe as [Hk Hv]; [by right|]. rewrite Hv. apply Hinv. by rewrite <- Hk.
Qed.

Lemma Student2_mastered_were_visited_witness :
  mastered_were_visited (Student2.init 3)
  /\ (mastered_were_visited (Student2.mk [0; 0; 0] [1; 0; 0]) ->
      Student2.do_exercise example_tree (mkExercise [1; 0; 0])
        (Student2.mk [0; 0; 0] [1; 0; 0])
      = Ok (true, Student2.mk [1; 0; 0] [1; 0; 0]) ->
      mastered_were_visited (Student2.mk [1; 0; 0] [1; 0; 0])).
Proof.
  apply (Student2_mastered_were_visited example_tree (mkExercise [1; 0; 0])
           (Student2.mk [0; 0; 0] [1; 0; 0]) (Student2.mk [1; 0; 0] [1; 0; 0])
           true 3).
Defined.

(** ** Exercises that mark nothing, and vectors of the wrong size *)

Lemma fulfilled_from_unmarked (concept_tree : ConceptDependencyGraph)
    (knowledge : list Z) (i : nat) (cs : list Z) :
  (forall j, cs !! j <> Some 1) ->
  fulfilled_prereqs_from concept_tree knowledge i cs = Ok true.
Proof.
  revert i. induction cs as [|x rest IH]; intros i Hno; simpl; [done|].
  destruct (Z.eqb_spec x 1) as [->|_].
  - exfalso. by apply (Hno 0%nat).
  - apply IH. intros j. apply (Hno (S j)).
Qed.

Lemma learn_from_unmarked (s : Student.t) (g : Rng) (i : nat) (cs : list Z) :
  (forall j, cs !! j <> Some 1) -> Student.learn_from s g i cs = Ok (s, g).
Proof.
  revert i. induction cs as [|x rest IH]; intros i Hno; simpl; [done|].
  destruct (Z.eqb_spec x 1) as [->|_].
  - exfalso. by apply (Hno 0%nat).
  - apply IH. intros j. apply (Hno (S j)).
Qed.

(** X7. An exercise that marks no concept, the empty vector included, has
    its prerequisites fulfilled and all its concepts learned.
    [Student2.do_exercise] answers [True] and changes nothing;
    [Student.do_exercise] changes no knowledge, consumes one draw [u] and
    answers 1 exactly when [u <= p_get_ex_correct_if_concepts_learned]. *)
Theorem do_exercise_nothing_marked (concept_tree : ConceptDependencyGraph)
    (ex : Exercise) (s2 : Student2.t) (s : Student.t) (g : Rng) :
  (forall j, concepts ex !! j <> Some 1) ->
  Student2.do_exercise concept_tree ex s2 = Ok (true, s2)
  /\ Student.do_exercise concept_tree ex s g
     = Ok (if Qle_bool (draws g (pos g))
                (Student.p_get_ex_correct_if_concepts_learned s)
           then 1 else 0,
           s, mkRng (draws g) (S (pos g))).
Proof.
  intros Hno. split.
  - unfold Student2.do_exercise, fulfilled_prereqs, learned_all_concepts_in_ex.
    rewrite fulfilled_from_unmarked by done. simpl.
    rewrite visit_from_unmarked by done. simpl.
    by rewrite learned_from_unmarked.
  - unfold Student.do_exercise, fulfilled_prereqs, learned_all_concepts_in_ex.
    rewrite fulfilled_from_unmarked by done. simpl.
    rewrite learn_from_unmarked by done. simpl.
    rewrite learned_from_unmarked by done. simpl.
    by destruct (Qle_bool _ _).
Qed.

Lemma do_exercise_nothing_marked_witness :
  Student2.do_exercise example_tree (mkExercise []) (Student2.init 3)
  = Ok (true, Student2.init 3)
  /\ Student.do_exercise example_tree (mkExercise [])
       (Student.mk (1 # 2) 0 1 [0; 0; 0]) example_rng
     = Ok (1, Student.mk (1 # 2) 0 1 [0; 0; 0], mkRng (draws example_rng) 1).
Proof.
  apply (do_exercise_nothing_marked example_tree (mkExercise []) (Student2.init 3)
           (Student.mk (1 # 2) 0 1 [0; 0; 0]) example_rng).
  intros j. simpl. by destruct j.
Defined.

Lemma fulfilled_from_single (concept_tree : ConceptDependencyGraph)
    (knowledge : list Z) (i c : nat) (cs : list Z) :
  tests_only cs c ->
  fulfilled_prereqs_from concept_tree knowledge i cs =
    (prod ← np_multiply knowledge (get_prereqs concept_tree (i + c));
     Ok (np_sum prod =? np_sum (get_prereqs concept_tree (i + c)))).
Proof.
  revert i c. induction cs as [|x rest IH]; intros i c Hc.
  - destruct Hc as [Hc _]. by destruct c.
  - destruct c as [|c].
    + apply tests_only_head in Hc as [-> Hno]. simpl.
      replace (i + 0)%nat with i by lia.
      destruct (np_multiply knowledge (get_prereqs concept_tree i)) as [prod|e];
        simpl; [|done].
      destruct (np_sum prod =? np_sum (get_prereqs concept_tree i)); simpl; [|done].
      by apply fulfilled_from_unmarked.
    + apply tests_only_tail in Hc as [Hx Hc]. simpl.
      destruct (Z.eqb_spec x 1) as [->|_]; [done|].
      rewrite (IH (S i) c Hc). by replace (S i + c)%nat with (i + S c)%nat by lia.
Qed.

Lemma np_multiply_mismatch (a b : list Z) :
  length a <> length b -> length a <> 1%nat -> length b <> 1%nat ->
  np_multiply a b = Raise ValueError.
Proof.
  intros Hab Ha Hb. unfold np_multiply. rewrite decide_False by done.
  destruct a as [|x [|x' a]]; destruct b as [|y [|y' b]]; simpl in *; done.
Qed.

(** X8. Vectors of different sizes are not tolerated.  When an exercise
    tests only [c] and the prerequisite vector of [c] has another length
    than the knowledge vector, neither of length one, [fulfilled_prereqs]
    raises [ValueError], and so does [do_exercise] of both students,
    whatever their other fields. *)
Theorem do_exercise_shape_mismatch (concept_tree : ConceptDependencyGraph)
    (ex : Exercise) (c : nat) (knowledge : list Z) :
  tests_only (concepts ex) c ->
  length knowledge <> length (get_prereqs concept_tree c) ->
  length knowledge <> 1%nat ->
  length (get_prereqs concept_tree c) <> 1%nat ->
  fulfilled_prereqs concept_tree knowledge (concepts ex) = Raise ValueError
  /\ (forall visited,
        Student2.do_exercise concept_tree ex (Student2.mk knowledge visited)
        = Raise ValueError)
  /\ (forall p1 p2 p3 g,
        Student.do_exercise concept_tree ex (Student.mk p1 p2 p3 knowledge) g
        = Raise ValueError).
Proof.
  intros Hc Hlen Hk Hp.
  assert (Hpre : fulfilled_prereqs concept_tree knowledge (concepts ex)
                 = Raise ValueError).
  { unfold fulfilled_prereqs. rewrite (fulfilled_from_single _ _ 0 c _ Hc). simpl.
    by rewrite np_multiply_mismatch. }
  split; [exact Hpre|]. split.
  - intros visited. unfold Student2.do_exercise. simpl. by rewrite Hpre.
  - intros p1 p2 p3 g. unfold Student.do_exercise. simpl. by rewrite Hpre.
Qed.

Lemma do_exercise_shape_mismatch_witness :
  fulfilled_prereqs example_tree [0; 0] [0; 1; 0] = Raise ValueError
  /\ (forall visited,
        Student2.do_exercise example_tree (mkExercise [0; 1; 0])
          (Student2.mk [0; 0] visited) = Raise ValueError)
  /\ (forall p1 p2 p3 g,
        Student.do_exercise example_tree (mkExercise [0; 1; 0])
          (Student.mk p1 p2 p3 [0; 0]) g = Raise ValueError).
Proof.
  apply (do_exercise_shape_mismatch example_tree (mkExercise [0; 1; 0]) 1%nat [0; 0]).
  - split; [reflexivity|]. intros [|[|[|i]]] Hi; vm_compute; congruence.
  - simpl. lia.
  - simpl. lia.
  - simpl. lia.
Defined.

(** ** The probabilistic student, for any exercise *)

Lemma count_marked_cons (x : Z) (cs : list Z) :
  count_marked (x :: cs)
  = ((if (x =? 1)%Z then 1 else 0) + count_marked cs)%nat.
Proof.
  unfold count_marked. rewrite filter_cons.
  destruct (Z.eqb_spec x 1) as [->|Hx].
  - by rewrite decide_True by done.
  - by rewrite decide_False by done.
Qed.

(** What the loop of [Student.do_exercise] does: one draw per marked
    concept, and an index changes only if it is marked, and then to 1. *)
Lemma learn_from_spec (cs : list Z) :
  forall c s g s' g', Student.learn_from s g c cs = Ok (s', g') ->
    Student.p_trans_satisfied s' = Student.p_trans_satisfied s
    /\ Student.p_trans_not_satisfied s' = Student.p_trans_not_satisfied s
    /\ Student.p_get_ex_correct_if_concepts_learned s'
       = Student.p_get_ex_correct_if_concepts_learned s
    /\ length (Student.knowledge s') = length (Student.knowledge s)
    /\ draws g' = draws g
    /\ pos g' = (pos g + count_marked cs)%nat
    /\ forall i,
         Student.knowledge s' !! i = Student.knowledge s !! i
         \/ ((c <= i)%nat /\ cs !! (i - c)%nat = Some 1
             /\ Student.knowledge s' !! i = Some 1).
Proof.
  induction cs as [|x rest IH]; intros c s g s' g' Hrun.
  - simpl in Hrun. injection Hrun as <- <-.
    repeat split; try done; try (unfold count_marked; simpl; lia); by left.
  - simpl in Hrun. rewrite count_marked_cons.
    destruct (Z.eqb_spec x 1) as [->|Hx].
    + destruct (Qle_bool (draws g (pos g)) (Student.p_trans_satisfied s)).
      * unfold py_setitem in Hrun.
        destruct (decide (c < length (Student.knowledge s))%nat) as [Hc|]; [|done].
        simpl in Hrun.
        destruct (IH _ _ _ _ _ Hrun) as (H1 & H2 & H3 & Hl & Hd & Hp & Hk).
        simpl in *. rewrite length_insert in Hl.
        repeat split; try done; [lia|].
        intros i. destruct (Hk i) as [Hi|(Hci & Hm & Hi)].
        { destruct (decide (i = c)) as [->|Hne].
          - right. rewrite Nat.sub_diag. split; [lia|]. split; [done|].
            rewrite Hi. by apply list_lookup_insert_eq.
          - left. rewrite Hi. by apply list_lookup_insert_ne. }
        { right. split; [lia|]. split; [|done].
          by replace (i - c)%nat with (S (i - S c)) by lia. }
      * destruct (IH _ _ _ _ _ Hrun) as (H1 & H2 & H3 & Hl & Hd & Hp & Hk).
        simpl in *. repeat split; try done; [lia|].
        intros i. destruct (Hk i) as [Hi|(Hci & Hm & Hi)]; [by left|].
        right. split; [lia|]. split; [|done].
        by replace (i - c)%nat with (S (i - S c)) by lia.
    + destruct (IH _ _ _ _ _ Hrun) as (H1 & H2 & H3 & Hl & Hd & Hp & Hk).
      repeat split; try done.
      intros i. destruct (Hk i) as [Hi|(Hci & Hm & Hi)]; [by left|].
      right. split; [lia|]. split; [|done].
      by replace (i - c)%nat with (S (i - S c)) by lia.
Qed.

Lemma Student_do_exercise_inv (concept_tree : ConceptDependencyGraph)
    (ex : Exercise) (s s' : Student.t) (g g' : Rng) (ob : Z) :
  Student.do_exercise concept_tree ex s g = Ok (ob, s', g') ->
  (fulfilled_prereqs concept_tree (Student.knowledge s) (concepts ex) = Ok false
   /\ s' = s)
  \/ (fulfilled_prereqs concept_tree (Student.knowledge s) (concepts ex) = Ok true
      /\ exists g1 learned,
           Student.learn_from s g 0 (concepts ex) = Ok (s', g1)
           /\ learned_all_concepts_in_ex (Student.knowledge s') (concepts ex)
              = Ok learned
           /\ draws g' = draws g1
           /\ pos g' = (pos g1 + (if learned : bool then 1 else 0))%nat
           /\ (ob = 0 \/ (ob = 1 /\ learned = true))).
Proof.
  unfold Student.do_exercise. intros Hrun.
  destruct (fulfilled_prereqs _ _ _) as [[|]|e] eqn:Epre; [| |done]; simpl in Hrun.
  - right. split; [done|].
    destruct (Student.learn_from s g 0 (concepts ex)) as [[s1 g1]|e]; [|done].
    simpl in Hrun.
    destruct (learned_all_concepts_in_ex _ _) as [[|]|e] eqn:El; [| |done];
      simpl in Hrun.
    + exists g1, true.
      destruct (Qle_bool _ _); injection Hrun as <- <- <-;
        (split; [done|]); (split; [done|]); (split; [done|]);
        (split; [simpl; lia|]); first [by right|by left].
    + injection Hrun as <- <- <-. exists g1, false.
      (split; [done|]); (split; [done|]); (split; [done|]);
        (split; [simpl; lia|]). by left.
  - left. split; [done|]. by injection Hrun as _ <- _.
Qed.

(** X9. [Student.do_exercise] never takes anything back either.  Whenever
    it returns, for any exercise and any draws: the probabilities and the
    length of the knowledge vector are unchanged; an index the exercise
    does not mark keeps its knowledge; and every index keeps its knowledge
    or has become 1. *)
Theorem Student_do_exercise_only_adds (concept_tree : ConceptDependencyGraph)
    (ex : Exercise) (s s' : Student.t) (g g' : Rng) (ob : Z) :
  Student.do_exercise concept_tree ex s g = Ok (ob, s', g') ->
  Student.p_trans_satisfied s' = Student.p_trans_satisfied s
  /\ Student.p_trans_not_satisfied s' = Student.p_trans_not_satisfied s
  /\ Student.p_get_ex_correct_if_concepts_learned s'
     = Student.p_get_ex_correct_if_concepts_learned s
  /\ length (Student.knowledge s') = length (Student.knowledge s)
  /\ forall i,
       (concepts ex !! i <> Some 1 ->
          Student.knowledge s' !! i = Student.knowledge s !! i)
       /\ (Student.knowledge s' !! i = Student.knowledge s !! i
           \/ Student.knowledge s' !! i = Some 1).
Proof.
  intros Hrun.
  apply Student_do_exercise_inv in Hrun as [[_ ->]|[_ (g1 & learned & Hlearn & _)]].
  - repeat split; try done. by left.
  - apply learn_from_spec in Hlearn as (H1 & H2 & H3 & Hl & _ & _ & Hk).
    repeat split; try done.
    + intros Hi. destruct (Hk i) as [Hsame|(_ & Hm & _)]; [done|].
      by rewrite Nat.sub_0_r in Hm.
    + destruct (Hk i) as [Hsame|(_ & _ & Hone)]; first [by left|by right].
Qed.

Lemma Student_do_exercise_only_adds_witness :
  let s := Student.mk 1 0 1 [1; 0; 0] in
  let s' := Student.mk 1 0 1 [1; 1; 0] in
  Student.p_trans_satisfied s' = Student.p_trans_satisfied s
  /\ Student.p_trans_not_satisfied s' = Student.p_trans_not_satisfied s
  /\ Student.p_get_ex_correct_if_concepts_learned s'
     = Student.p_get_ex_correct_if_concepts_learned s
  /\ length (Student.knowledge s') = length (Student.knowledge s)
  /\ forall i,
       ([0; 1; 0] !! i <> Some 1 ->
          Student.knowledge s' !! i = Student.knowledge s !! i)
       /\ (Student.knowledge s' !! i = Student.knowledge s !! i
           \/ Student.knowledge s' !! i = Some 1).
Proof.
  intros s s'.
  apply (Student_do_exercise_only_adds example_tree (mkExercise [0; 1; 0]) s s'
           example_rng (mkRng (draws example_rng) 2) 1).
  reflexivity.
Defined.

(** X10. With the prerequisites fulfilled, [Student.do_exercise] consumes
    one draw for every concept the exercise marks, and one more exactly
    when all marked concepts are learned after the updates; it answers 0
    or 1, and it answers 1 only in the latter case. *)
Theorem Student_fulfilled_draws (concept_tree : ConceptDependencyGraph)
    (ex : Exercise) (s s' : Student.t) (g g' : Rng) (ob : Z) :
  fulfilled_prereqs concept_tree (Student.knowledge s) (concepts ex) = Ok true ->
  Student.do_exercise concept_tree ex s g = Ok (ob, s', g') ->
  exists learned : bool,
    learned_all_concepts_in_ex (Student.knowledge s') (concepts ex) = Ok learned
    /\ draws g' = draws g
    /\ pos g' = (pos g + count_marked (concepts ex)
                 + (if learned then 1 else 0))%nat
    /\ (ob = 0 \/ ob = 1)
    /\ (ob = 1 -> learned = true).
Proof.
  intros Hpre Hrun.
  apply Student_do_exercise_inv in Hrun
    as [[Hno _]|[_ (g1 & learned & Hlearn & Hl & Hd & Hp & Hob)]]; [congruence|].
  apply learn_from_spec in Hlearn as (_ & _ & _ & _ & Hd1 & Hp1 & _).
  exists learned. split; [done|]. split; [congruence|]. split; [lia|].
  split; [destruct Hob as [?|[? _]]; first [by left|by right]|].
  intros ->. by destruct Hob as [?|[_ ?]].
Qed.

Lemma Student_fulfilled_draws_witness :
  exists learned : bool,
    learned_all_concepts_in_ex [1; 1; 0] [0; 1; 0] = Ok learned
    /\ draws (mkRng (draws example_rng) 2) = draws example_rng
    /\ pos (mkRng (draws example_rng) 2)
       = (pos example_rng + count_marked [0; 1; 0]%Z
          + (if learned then 1 else 0))%nat
    /\ (1 = 0 \/ 1 = 1)
    /\ (1 = 1 -> learned = true).
Proof.
  apply (Student_fulfilled_draws example_tree (mkExercise [0; 1; 0])
           (Student.mk 1 0 1 [1; 0; 0]) (Student.mk 1 0 1 [1; 1; 0])
           example_rng (mkRng (draws example_rng) 2) 1).
  - reflexivity.
  - reflexivity.
Defined.

(** ** Rewards along a trajectory *)

Lemma np_sum_only_adds (k : list Z) :
  forall k', length k' = length k ->
    (forall i, k' !! i = k !! i \/ k' !! i = Some 1) ->
    binary k -> binary k' /\ np_sum k <= np_sum k'.
Proof.
  induction k as [|x k IH]; intros k' Hlen Hk Hb.
  - destruct k'; [|done]. split; [constructor|simpl; lia].
  - destruct k' as [|x' k']; [done|]. simpl in Hlen.
    apply Forall_cons in Hb as [Hx Hb].
    destruct (IH k' ltac:(lia) (fun i => Hk (S i)) Hb) as [Hb' Hle].
    assert (Hx' : x' = x \/ x' = 1).
    { destruct (Hk 0%nat) as [E|E]; simpl in E; injection E as ->; first [by left|by right]. }
    split.
    + apply Forall_cons. split; [|done]. destruct Hx' as [->| ->]; [done|by right].
    + simpl. destruct Hx' as [->| ->]; [lia|]. destruct Hx as [->| ->]; lia.
Qed.

(** X11. Along a trajectory of the exact simulator over a [Student2] whose
    knowledge holds only 0 and 1, rewards never decrease: after a step
    that returns reward [r1] the knowledge still holds only 0 and 1, and
    the next step returns a reward [r2 >= r1]. *)
Theorem exact_sim_rewards_never_decrease
    (sim sim1 sim2 : StudentExactSim.t Student2.t) (a1 a2 : StudentAction.t)
    (g g1 g2 : Rng) (ob1 ob2 r1 r2 : Z) :
  binary (Student2.knowledge (StudentExactSim.student sim)) ->
  StudentExactSim.advance_simulator sim a1 g = Ok ((ob1, r1), sim1, g1) ->
  StudentExactSim.advance_simulator sim1 a2 g1 = Ok ((ob2, r2), sim2, g2) ->
  binary (Student2.knowledge (StudentExactSim.student sim1)) /\ r1 <= r2.
Proof.
  intros Hb H1 H2. unfold StudentExactSim.advance_simulator in H1, H2.
  simpl in H1, H2.
  destruct (Student2.do_exercise (StudentExactSim.dgraph sim) _
              (StudentExactSim.student sim)) as [[b1 s1]|e] eqn:E1; [|done].
  simpl in H1. injection H1 as <- <- <- <-.
  destruct (Student2.do_exercise _ _ _) as [[b2 s2]|e] eqn:E2 in H2; [|done].
  simpl in H2. injection H2 as _ <- _ _. simpl.
  apply Student2_do_exercise_grows in E1 as (Hl & _ & Hadd).
  apply (np_sum_only_adds _ _ Hl); [|done].
  intros i. by destruct (Hadd i) as (_ & Hk & _).
Qed.

Lemma exact_sim_rewards_never_decrease_witness :
  binary [1; 1; 0] /\ 1 <= 2.
Proof.
  apply (exact_sim_rewards_never_decrease
           (StudentExactSim.mk (Student2.mk [1; 0; 0] [0; 1; 0]) example_tree)
           (StudentExactSim.mk (Student2.mk [1; 1; 0] [0; 1; 0]) example_tree)
           (StudentExactSim.mk (Student2.mk [1; 1; 0] [0; 1; 0]) example_tree)
           (StudentAction.mk 1 [0; 1; 0]) (StudentAction.mk 1 [0; 1; 0])
           example_rng example_rng example_rng 1 1 1 2).
  - solve_binary.
  - reflexivity.
  - reflexivity.
Defined.

(** ** The loop over the saved epochs *)

Lemma train_epochs_log (xs : list Z) (w : list train_event) :
  for_each xs tt (fun _ _ => log_event TrainEpoch) w
  = (Ok tt, w ++ replicate (length xs) TrainEpoch).
Proof.
  revert w. induction xs as [|x xs IH]; intros w; simpl.
  - by rewrite app_nil_r.
  - unfold mbind, io_bind, log_event. rewrite IH.
    by rewrite <- app_assoc.
Qed.

Lemma checkpoints_from_trained (k : nat) (n : Z) (log : list train_event) :
  checkpoints_from n (replicate k TrainEpoch ++ log)
  = checkpoints_from (n + Z.of_nat k) log.
Proof.
  revert n. induction k as [|k IH]; intros n; simpl.
  - by rewrite Z.add_0_r.
  - rewrite IH. f_equal. lia.
Qed.

Lemma train_saved_epochs_run (saved_epochs : list Z) :
  forall trained w,
    increasing_above (trained - 1) saved_epochs ->
    exists log,
      train_saved_epochs trained saved_epochs w = (Ok tt, w ++ log)
      /\ checkpoints_from trained log
         = map (fun ep => (ep, ep + 1)) saved_epochs.
Proof.
  induction saved_epochs as [|ep rest IH]; intros trained w Hinc.
  - exists []. by rewrite app_nil_r.
  - destruct Hinc as [Hep Hinc]. simpl.
    unfold mbind at 1, io_bind at 1, lift, py_assert.
    replace (0 <? ep + 1 - trained) with true by (symmetry; apply Z.ltb_lt; lia).
    unfold mbind at 1, io_bind at 1. rewrite train_epochs_log.
    unfold mbind at 1, io_bind at 1, log_event at 1.
    destruct (IH (ep + 1)
                ((w ++ replicate (length (py_range (ep + 1 - trained))) TrainEpoch)
                   ++ [SaveCheckpoint ep])) as (log & Hrun & Hcheck).
    { by replace (ep + 1 - 1) with ep by lia. }
    exists (replicate (length (py_range (ep + 1 - trained))) TrainEpoch
              ++ SaveCheckpoint ep :: log).
    split.
    + rewrite Hrun. f_equal. by rewrite <- !app_assoc.
    + rewrite checkpoints_from_trained. simpl.
      unfold py_range. rewrite length_map, length_seq, Z2Nat.id by lia.
      replace (trained + (ep + 1 - trained)) with (ep + 1) by lia.
      by rewrite Hcheck.
Qed.

(** X12. When [saved_epochs] increases strictly and starts at 0 or above,
    the training loop of a run passes every assertion, saves one
    checkpoint per saved epoch, in order, and the checkpoint of epoch [ep]
    is saved after exactly [ep + 1] epochs of training in all. *)
Theorem saved_epochs_schedule (saved_epochs : list Z) :
  increasing_above (-1) saved_epochs ->
  exists log,
    train_saved_epochs 0 saved_epochs [] = (Ok tt, log)
    /\ checkpoints_from 0 log = map (fun ep => (ep, ep + 1)) saved_epochs.
Proof.
  intros Hinc.
  destruct (train_saved_epochs_run saved_epochs 0 [] Hinc) as (log & Hrun & Hc).
  exists log. split; [exact Hrun|exact Hc].
Qed.

Lemma saved_epochs_schedule_witness :
  exists log,
    train_saved_epochs 0 [0; 2; 5] [] = (Ok tt, log)
    /\ checkpoints_from 0 log = [(0, 1); (2, 3); (5, 6)].
Proof.
  apply (saved_epochs_schedule [0; 2; 5]). simpl. lia.
Defined.

Lemma train_saved_epochs_fails (saved_epochs : list Z) :
  forall trained w,
    ~ increasing_above (trained - 1) saved_epochs ->
    fst (train_saved_epochs trained saved_epochs w) = Raise AssertionError.
Proof.
  induction saved_epochs as [|ep rest IH]; intros trained w Hinc; [by destruct Hinc|].
  simpl. unfold mbind at 1, io_bind at 1, lift, py_assert.
  destruct (Z.ltb_spec 0 (ep + 1 - trained)) as [Hlt|Hge]; [|done].
  unfold mbind at 1, io_bind at 1. rewrite train_epochs_log.
  unfold mbind at 1, io_bind at 1, log_event at 1.
  apply IH. intros Hrest. apply Hinc. simpl. split; [lia|].
  by replace (ep + 1 - 1) with ep in Hrest by lia.
Qed.

(** X13. When [saved_epochs] does not increase strictly from 0 or above
    (an epoch repeated, out of order, or negative), the training loop of a
    run stops with the assertion error. *)
Theorem saved_epochs_malformed (saved_epochs : list Z) :
  ~ increasing_above (-1) saved_epochs ->
  fst (train_saved_epochs 0 saved_epochs []) = Raise AssertionError.
Proof. intros Hinc. by apply train_saved_epochs_fails. Qed.

Lemma saved_epochs_malformed_witness :
  fst (train_saved_epochs 0 [3; 3] []) = Raise AssertionError.
Proof.
  apply (saved_epochs_malformed [3; 3]). simpl. lia.
Defined.

(** ** The callback of the training calls *)

Lemma py_getitem_int_last {A} (l : list A) (x : A) :
  py_getitem_int (l ++ [x]) (-1) = Ok x.
Proof.
  unfold py_getitem_int. rewrite length_app. simpl length.
  replace (0 <=? -1) with false by done. simpl andb.
  replace (- Z.of_nat (length l + 1) <=? -1) with true
    by (symmetry; apply Z.leb_le; lia).
  simpl.
  replace (Z.to_nat (Z.of_nat (length l + 1) + -1)) with (length l) by lia.
  unfold py_getitem. by rewrite list_lookup_middle.
Qed.

Lemma py_getitem_int_nat {A} (l : list A) (i : nat) (x : A) :
  l !! i = Some x -> py_getitem_int l (Z.of_nat i) = Ok x.
Proof.
  intros Hi. pose proof (lookup_lt_Some _ _ _ Hi) as Hlt.
  unfold py_getitem_int.
  replace (0 <=? Z.of_nat i) with true by (symmetry; apply Z.leb_le; lia).
  replace (Z.of_nat i <? Z.of_nat (length l)) with true
    by (symmetry; apply Z.ltb_lt; lia).
  simpl. rewrite Nat2Z.id. unfold py_getitem. by rewrite Hi.
Qed.

Lemma py_getitem_int_raises {A} (l : list A) (i : Z) (e : exn) :
  py_getitem_int l i = Raise e -> e = IndexError.
Proof.
  unfold py_getitem_int, py_getitem.
  repeat match goal with
         | |- context [if ?b then _ else _] => destruct b
         | |- context [match ?o with Some _ => _ | None => _ end] => destruct o
         end; congruence.
Qed.

Lemma for_result_append {A B} (xs : list A) (g : A -> B)
    (body : list B -> A -> result (list B)) :
  (forall acc x, x ∈ xs -> body acc x = Ok (acc ++ [g x])) ->
  forall acc, model_training.for_result xs acc body = Ok (acc ++ map g xs).
Proof.
  induction xs as [|x xs IH]; intros Hbody acc; simpl.
  - by rewrite app_nil_r.
  - rewrite Hbody by left. simpl. rewrite IH.
    + by rewrite <- app_assoc.
    + intros acc' y Hy. apply Hbody. by right.
Qed.

Lemma on_batch_end_last {A} (self : ExtractCallback.t A) (batch : list A) (ts : A) :
  ExtractCallback.on_batch_end (self ++ [batch]) ts = Ok (self ++ [batch ++ [ts]]).
Proof.
  unfold ExtractCallback.on_batch_end. rewrite py_getitem_int_last. simpl.
  unfold py_setitem. rewrite length_app. simpl length.
  case_decide; [|lia]. f_equal.
  replace (length self + 1 - 1)%nat with (length self + 0)%nat by lia.
  by rewrite insert_app_r.
Qed.

Lemma replay_batches {A} (batches : list A) :
  forall (self : ExtractCallback.t A) (batch : list A) rest,
    ExtractCallback.replay (map ExtractCallback.BatchEnd batches ++ rest)
      (self ++ [batch])
    = ExtractCallback.replay rest (self ++ [batch ++ batches]).
Proof.
  induction batches as [|ts batches IH]; intros self batch rest; simpl.
  - by rewrite app_nil_r.
  - unfold ExtractCallback.replay. simpl. rewrite on_batch_end_last. simpl.
    fold (ExtractCallback.replay (map ExtractCallback.BatchEnd batches ++ rest)
            (self ++ [batch ++ [ts]])).
    rewrite IH. by rewrite <- app_assoc.
Qed.

(** X14. The callback groups the training states by epoch, however many
    training calls it is handed to: after the calls of a training over
    [epochs], its list has grown by exactly one list per epoch, holding the
    states of the batches of that epoch in order.  A batch that ends before
    any epoch has begun stops with [IndexError]. *)
Theorem ExtractCallback_groups_by_epoch {A} (epochs : list (list A))
    (self : ExtractCallback.t A) :
  ExtractCallback.replay (ExtractCallback.fit_events epochs) self
  = Ok (self ++ epochs)
  /\ forall ts rest,
       ExtractCallback.replay (ExtractCallback.BatchEnd ts :: rest)
         (@ExtractCallback.init A)
       = Raise IndexError.
Proof.
  split.
  - revert self. induction epochs as [|batches epochs IH]; intros self.
    + simpl. by rewrite app_nil_r.
    + simpl. unfold ExtractCallback.replay. simpl.
      unfold ExtractCallback.on_epoch_begin.
      fold (ExtractCallback.replay
              (map ExtractCallback.BatchEnd batches
                 ++ ExtractCallback.fit_events epochs) (self ++ [[]])).
      rewrite replay_batches. rewrite IH. simpl.
      by rewrite <- app_assoc.
  - reflexivity.
Qed.

Lemma last_val_losses_empty_batch {A} (val_loss : A -> Q)
    (tstates : ExtractCallback.t A) :
  [] ∈ tstates ->
  forall acc,
    model_training.for_result tstates acc (fun losses batch =>
      ts ← py_getitem_int batch (-1); Ok (losses ++ [val_loss ts]))
    = Raise IndexError.
Proof.
  induction tstates as [|batch tstates IH]; intros Hin acc.
  - by apply elem_of_nil in Hin.
  - simpl. destruct (py_getitem_int batch (-1)) as [ts|e] eqn:Hlast.
    + simpl. apply IH. apply elem_of_cons in Hin as [<-|Hin]; [done|exact Hin].
    + simpl. by rewrite (py_getitem_int_raises _ _ _ Hlast).
Qed.

(** X15. The validation losses read from the callback are those of the
    last batch of each epoch, one per epoch; if an epoch recorded no batch
    at all, reading them stops with [IndexError]. *)
Theorem last_val_losses_meaning {A} (val_loss : A -> Q) :
  (forall epochs : list (list A * A),
     ExtractCallback.last_val_losses val_loss
       (map (fun e => fst e ++ [snd e]) epochs)
     = Ok (map (fun e => val_loss (snd e)) epochs))
  /\ (forall tstates : ExtractCallback.t A,
        [] ∈ tstates ->
        ExtractCallback.last_val_losses val_loss tstates = Raise IndexError).
Proof.
  split.
  - intros epochs. unfold ExtractCallback.last_val_losses.
    rewrite (for_result_append _ (fun b : list A =>
               match py_getitem_int b (-1) with
               | Ok ts => val_loss ts
               | Raise _ => 0%Q
               end)).
    + simpl. rewrite map_map. f_equal. apply map_ext. intros [b ts]. simpl.
      by rewrite py_getitem_int_last.
    + intros acc b Hb. apply list_elem_of_fmap in Hb as ([b' ts] & -> & _).
      simpl. by rewrite py_getitem_int_last.
  - intros tstates Hin. by apply last_val_losses_empty_batch.
Qed.

Lemma last_val_losses_meaning_witness :
  ExtractCallback.last_val_losses (fun ts : Q => ts) [[(1 # 2)%Q]; []]
  = Raise IndexError.
Proof.
  apply (proj2 (last_val_losses_meaning (fun ts : Q => ts))).
  apply list_elem_of_In. simpl. auto.
Defined.

(** ** The multistep driver *)

Lemma groups_of_length {A} (size m : nat) (l : list A) :
  length (groups_of size m l) = m.
Proof. revert l. induction m as [|m IH]; intros l; simpl; [done|by rewrite IH]. Qed.

Lemma groups_of_concat {A} (size m : nat) (l : list A) :
  concat (groups_of size m l) = take (m * size) l.
Proof.
  revert l. induction m as [|m IH]; intros l; simpl; [done|].
  by rewrite IH, take_take_drop.
Qed.

Lemma groups_of_sizes {A} (size m : nat) (l : list A) :
  (m * size <= length l)%nat ->
  Forall (fun g => length g = size) (groups_of size m l).
Proof.
  revert l. induction m as [|m IH]; intros l Hl; simpl; constructor.
  - rewrite length_take. simpl in Hl. lia.
  - apply IH. rewrite length_drop. simpl in Hl. lia.
Qed.

Lemma groups_of_nothing {A} (m : nat) (size : nat) :
  groups_of size m (@nil A) = replicate m [].
Proof.
  induction m as [|m IH]; simpl; [done|].
  by rewrite take_nil, drop_nil, IH.
Qed.

Lemma map_const_replicate {A B} (c : B) (l : list A) :
  map (fun _ => c) l = replicate (length l) c.
Proof. induction l as [|x l IH]; simpl; [done|by rewrite IH]. Qed.

Lemma regroup_inner {A} (flat_output : list A) (r : nat) (eps : list Z) :
  forall (outdata : list (list A)) (ix : nat) (row : list A),
    outdata !! r = Some row ->
    (ix + length eps <= length flat_output)%nat ->
    model_training.for_result eps (outdata, ix)
      (fun '(outdata, ix) ep =>
         row ← py_getitem_int outdata (Z.of_nat r);
         x ← py_getitem flat_output ix;
         outdata ← py_setitem outdata (Z.to_nat (Z.of_nat r)) (row ++ [x]);
         Ok (outdata, S ix))
    = Ok (<[r := row ++ take (length eps) (drop ix flat_output)]> outdata,
          (ix + length eps)%nat).
Proof.
  rewrite Nat2Z.id.
  induction eps as [|ep eps IH]; intros outdata ix row Hrow Hlen.
  - simpl. rewrite app_nil_r, Nat.add_0_r. by rewrite list_insert_id.
  - simpl in Hlen. simpl model_training.for_result.
    rewrite (py_getitem_int_nat _ _ _ Hrow). simpl.
    destruct (lookup_lt_is_Some_2 flat_output ix) as [x Hx]; [lia|].
    rewrite (py_getitem_Some flat_output ix x Hx). simpl.
    pose proof (lookup_lt_Some _ _ _ Hrow) as Hr.
    rewrite (py_setitem_lt outdata r (row ++ [x]) Hr). simpl.
    rewrite (IH _ (S ix) (row ++ [x])).
    + rewrite list_insert_insert_eq. f_equal. f_equal; [|lia].
      f_equal. rewrite <- app_assoc. f_equal. simpl.
      by rewrite (drop_S _ _ _ Hx).
    + by rewrite list_lookup_insert_eq.
    + lia.
Qed.

Lemma regroup_outer {A} (flat_output : list A) (eps : list Z) (m : nat) :
  forall (done : list (list A)) (ix : nat),
    (ix + m * length eps <= length flat_output)%nat ->
    model_training.for_result (map Z.of_nat (seq (length done) m))
      (done ++ replicate m [], ix)
      (fun '(outdata, ix) r =>
         model_training.for_result eps (outdata, ix)
           (fun '(outdata, ix) ep =>
              row ← py_getitem_int outdata r;
              x ← py_getitem flat_output ix;
              outdata ← py_setitem outdata (Z.to_nat r) (row ++ [x]);
              Ok (outdata, S ix)))
    = Ok (done ++ groups_of (length eps) m (drop ix flat_output),
          (ix + m * length eps)%nat).
Proof.
  induction m as [|m IH]; intros done ix Hlen.
  - simpl. by rewrite Nat.add_0_r.
  - simpl in Hlen. simpl seq. simpl map. simpl replicate.
    simpl model_training.for_result.
    rewrite (regroup_inner flat_output (length done) eps _ ix []);
      [|by apply list_lookup_middle|lia].
    simpl.
    replace (<[length done:=take (length eps) (drop ix flat_output)]>
               (done ++ [] :: replicate m []))
      with ((done ++ [take (length eps) (drop ix flat_output)]) ++ replicate m []).
    2:{ rewrite insert_app_r_alt by lia. rewrite Nat.sub_diag. simpl.
        by rewrite <- app_assoc. }
    replace (S (length done))
      with (length (done ++ [take (length eps) (drop ix flat_output)]))
      by (rewrite length_app; simpl; lia).
    rewrite IH by lia.
    rewrite <- app_assoc. simpl. rewrite drop_drop.
    f_equal. f_equal. lia.
Qed.

Lemma regroup_groups {A} (num_runs : Z) (saved_epochs : list Z)
    (flat_output : list A) :
  (Z.to_nat num_runs * length saved_epochs <= length flat_output)%nat ->
  dkt_multistep_regroup num_runs saved_epochs flat_output
  = Ok (groups_of (length saved_epochs) (Z.to_nat num_runs) flat_output).
Proof.
  intros Hlen. unfold dkt_multistep_regroup, py_range.
  rewrite map_const_replicate, length_map, length_seq.
  pose proof (regroup_outer flat_output saved_epochs (Z.to_nat num_runs) [] 0) as E.
  simpl in E. rewrite E by exact Hlen. reflexivity.
Qed.

(** X16. Putting the workers' outputs back per run loses and reorders
    nothing.  When the flat list holds one output per run and saved epoch,
    [dkt_multistep] regroups it into one list per run with one output per
    saved epoch each, and the groups laid end to end are the flat list
    again. *)
Theorem dkt_multistep_regroup_round_trip {A} (num_runs : Z)
    (saved_epochs : list Z) (flat_output : list A) :
  length flat_output = (Z.to_nat num_runs * length saved_epochs)%nat ->
  exists outdata,
    dkt_multistep_regroup num_runs saved_epochs flat_output = Ok outdata
    /\ length outdata = Z.to_nat num_runs
    /\ Forall (fun g => length g = length saved_epochs) outdata
    /\ concat outdata = flat_output.
Proof.
  intros Hlen. eexists. split; [apply regroup_groups; lia|].
  split; [apply groups_of_length|].
  split; [apply groups_of_sizes; lia|].
  rewrite groups_of_concat, <- Hlen. apply firstn_all.
Qed.

Lemma dkt_multistep_regroup_round_trip_witness :
  exists outdata,
    dkt_multistep_regroup 2 [4; 9; 14] [10; 11; 12; 20; 21; 22] = Ok outdata
    /\ length outdata = 2%nat
    /\ Forall (fun g => length g = 3%nat) outdata
    /\ concat outdata = [10; 11; 12; 20; 21; 22].
Proof.
  apply (dkt_multistep_regroup_round_trip 2 [4; 9; 14] [10; 11; 12; 20; 21; 22]).
  reflexivity.
Defined.

Section MultistepDriver.
Context {W : Type} `{Runtime W}.
Variable multistep_statfile : TrainParams -> nat -> nat -> string.

Lemma dkt_multistep_single_raises (n_concepts n_trajectories : nat)
    (model_id : string) (checkpoints : list string) (horizon : nat)
    (use_mem : bool) (w : W) :
  exists e w',
    model_training.dkt_multistep_single n_concepts n_trajectories
      model_id checkpoints horizon use_mem w = (Raise e, w').
Proof.
  unfold model_training.dkt_multistep_single.
  unfold mbind at 1, io_bind at 1.
  match goal with
  | |- context [match ?m w with _ => _ end] => destruct (m w) as [[predict|e] w']
  end.
  - exists TypeError, w'. reflexivity.
  - exists e, w'. reflexivity.
Qed.

Lemma worker_inputs_nonempty (params : TrainParams) (use_mem : bool) :
  1 <= num_runs params -> saved_epochs params <> [] ->
  exists first rest, dkt_multistep_worker_inputs params use_mem = first :: rest.
Proof.
  intros Hruns Heps. unfold dkt_multistep_worker_inputs, py_range.
  destruct (Z.to_nat (num_runs params)) as [|k] eqn:Hk; [lia|].
  destruct (saved_epochs params) as [|ep eps]; [done|].
  simpl. eauto.
Qed.

Lemma worker_inputs_empty (params : TrainParams) (use_mem : bool) :
  num_runs params <= 0 \/ saved_epochs params = [] ->
  dkt_multistep_worker_inputs params use_mem = [].
Proof.
  intros [Hruns|Heps]; unfold dkt_multistep_worker_inputs, py_range.
  - by replace (Z.to_nat (num_runs params)) with 0%nat by lia.
  - rewrite Heps. simpl. induction (map Z.of_nat _) as [|r rs IH]; simpl; done.
Qed.

(** X17. [dkt_multistep] never writes its statistics when there is
    anything to compute.  With at least one run and one saved epoch, the
    first worker fails (it cannot construct its student), the failure
    leaves [dkt_multistep], and the outcome is the same whatever writing
    the file would do: the file is never written. *)
Theorem dkt_multistep_never_writes (params : TrainParams)
    (n_trajectories horizon : nat) (use_mem : bool) (w : W)
    (pickle_dump : string -> list (list table) -> io W unit) :
  1 <= num_runs params ->
  saved_epochs params <> [] ->
  exists e w',
    dkt_multistep multistep_statfile pickle_dump params n_trajectories horizon
      use_mem w = (Raise e, w')
    /\ forall other_dump,
         dkt_multistep multistep_statfile other_dump params n_trajectories
           horizon use_mem w = (Raise e, w').
Proof.
  intros Hruns Heps.
  destruct (worker_inputs_nonempty params use_mem Hruns Heps)
    as ([[runs ep] checkpoints] & rest & Hin).
  destruct (dkt_multistep_single_raises (n_concepts params) n_trajectories
              (model_id params) checkpoints horizon use_mem w) as (e & w' & Hfail).
  exists e, w'.
  assert (Hany : forall dump,
             dkt_multistep multistep_statfile dump params n_trajectories horizon
               use_mem w = (Raise e, w')).
  { intros dump. unfold dkt_multistep. rewrite Hin.
    unfold Parallel. simpl map.
    unfold mbind at 1, io_bind at 1.
    change (8 =? 0) with false. cbv iota.
    erewrite run_tasks_first_raises; [reflexivity|exact Hfail]. }
  split; [apply Hany|exact Hany].
Qed.

(** X18. With nothing to compute, [dkt_multistep] runs no worker and
    writes, at the path of its statistics file, one empty list per run
    (no list at all when [num_runs] is zero or negative). *)
Theorem dkt_multistep_without_work (params : TrainParams)
    (n_trajectories horizon : nat) (use_mem : bool) (w : W)
    (pickle_dump : string -> list (list table) -> io W unit) :
  num_runs params <= 0 \/ saved_epochs params = [] ->
  dkt_multistep multistep_statfile pickle_dump params n_trajectories horizon
    use_mem w
  = pickle_dump
      (path_join (dir_name params)
         (multistep_statfile params horizon n_trajectories))
      (replicate (Z.to_nat (num_runs params)) []) w.
Proof.
  intros Hnone. unfold dkt_multistep.
  rewrite (worker_inputs_empty params use_mem Hnone).
  unfold Parallel. simpl.
  unfold mbind at 1, io_bind at 1. simpl.
  unfold mbind at 1, io_bind at 1, lift.
  rewrite regroup_groups.
  - by rewrite groups_of_nothing.
  - simpl. destruct Hnone as [Hruns|Heps].
    + replace (Z.to_nat (num_runs params)) with 0%nat by lia. simpl. lia.
    + rewrite Heps. simpl. lia.
Qed.

End MultistepDriver.

Lemma dkt_multistep_never_writes_witness :
  exists e w',
    dkt_multistep (H := example_runtime (Ok tt)) (fun _ _ _ => "multistep.pickle"%string)
      (fun _ _ => logged "dump" tt) (example_params 2) 1 1 false []
    = (Raise e, w')
    /\ forall other_dump,
         dkt_multistep (H := example_runtime (Ok tt))
           (fun _ _ _ => "multistep.pickle"%string) other_dump
           (example_params 2) 1 1 false []
         = (Raise e, w').
Proof.
  apply (dkt_multistep_never_writes (H := example_runtime (Ok tt))
           (fun _ _ _ => "multistep.pickle"%string) (example_params 2) 1 1 false []
           (fun _ _ => logged "dump" tt)).
  - vm_compute. congruence.
  - discriminate.
Defined.

Lemma dkt_multistep_without_work_witness :
  dkt_multistep (H := example_runtime (Ok tt)) (fun _ _ _ => "multistep.pickle"%string)
    (fun _ outdata w => (Ok tt, w ++ ["dump"%string]))
    (example_params 0) 1 1 false []
  = (Ok tt, ["dump"%string]).
Proof.
  rewrite (dkt_multistep_without_work (H := example_runtime (Ok tt))
             (fun _ _ _ => "multistep.pickle"%string) (example_params 0) 1 1 false []
             (fun _ outdata w => (Ok tt, w ++ ["dump"%string]))).
  - reflexivity.
  - left. vm_compute. congruence.
Defined.


(** ** The ensembles *)

(** X19. [dkt_multistep_ensemble] cannot do its forward search.  The name
    [dkt_forwardsearch_single] is bound neither in the function nor at
    module level; when the star imports and the builtins bind none either,
    every call with [ensemble_split >= 1] and a saved epoch stops with
    [NameError] at the first forward search, leaving the outside state as
    it was: the statistics file is never written.  With
    [ensemble_split <= 0] there is no split to go through and the file is
    written with an empty list. *)
Theorem dkt_multistep_ensemble_name_error {W : Type} `{Runtime W}
    (pickle_dump : string -> list (list table) -> io W unit)
    (ensemble_statfile : TrainParams -> nat -> string)
    (call_forward_search :
       pyval -> nat -> string -> list string -> nat -> bool -> io W table)
    (outer : env) (trainparams : TrainParams) (ensemble_split : Z)
    (horizon : nat) (use_mem : bool) (w : W) :
  ~ In "dkt_forwardsearch_single"%string model_training_module_names
  /\ (1 <= ensemble_split -> saved_epochs trainparams <> [] ->
      env_lookup outer "dkt_forwardsearch_single" = None ->
      dkt_multistep_ensemble pickle_dump ensemble_statfile call_forward_search
        outer trainparams ensemble_split horizon use_mem w
      = (Raise (NameError "dkt_forwardsearch_single"), w))
  /\ (ensemble_split <= 0 ->
      dkt_multistep_ensemble pickle_dump ensemble_statfile call_forward_search
        outer trainparams ensemble_split horizon use_mem w
      = pickle_dump
          (path_join (dir_name trainparams) (ensemble_statfile trainparams horizon))
          [] w).
Proof.
  split; [intros Hin; vm_compute in Hin; intuition congruence|]. split.
  - intros Hsplit Heps Houter. unfold dkt_multistep_ensemble, py_range.
    destruct (Z.to_nat ensemble_split) as [|k] eqn:Ek; [lia|].
    destruct (saved_epochs trainparams) as [|ep eps]; [done|].
    simpl seq. simpl map at 3. cbn [for_each].
    unfold mbind at 1, io_bind at 1.
    unfold mbind at 1, io_bind at 1.
    unfold mbind at 1, io_bind at 1.
    unfold lift at 1, py_int_div.
    destruct (Z.eqb_spec ensemble_split 0) as [E|_]; [lia|].
    unfold mbind at 1, io_bind at 1.
    unfold mbind at 1, io_bind at 1.
    unfold lift at 1, load_name. rewrite env_lookup_app.
    cbn. rewrite Houter. reflexivity.
  - intros Hsplit. unfold dkt_multistep_ensemble, py_range.
    by replace (Z.to_nat ensemble_split) with 0%nat by lia.
Qed.

Lemma dkt_multistep_ensemble_name_error_witness :
  dkt_multistep_ensemble (H := example_runtime (Ok tt))
    (fun _ _ => logged "dump" tt) (fun _ _ => "fsearchensemble.pickle"%string)
    (fun _ _ _ _ _ _ => logged "search" [])
    [("action_ob_encode", PyObj "action_ob_encode")]%string
    (example_params 5) 2 6 false []
  = (Raise (NameError "dkt_forwardsearch_single"), []).
Proof.
  apply (dkt_multistep_ensemble_name_error (H := example_runtime (Ok tt))
           (fun _ _ => logged "dump" tt)
           (fun _ _ => "fsearchensemble.pickle"%string)
           (fun _ _ _ _ _ _ => logged "search" [])
           [("action_ob_encode", PyObj "action_ob_encode")]%string
           (example_params 5) 2 6 false []).
  - lia.
  - discriminate.
  - reflexivity.
Defined.

(** ** Memoization at the edges *)

Lemma memoize_nothing (st_star : env)
    (call_st : pyval -> nat -> nat -> result StudentAction.t)
    (n_concepts horizon : nat) (dkt : RnnStudentSim.t) :
  n_concepts = 0%nat \/ horizon = 0%nat ->
  model_training.memoize st_star call_st n_concepts dkt horizon
  = Ok (model_training.allocate_mem_arrays n_concepts horizon).
Proof.
  intros [-> | ->];
    unfold model_training.memoize, model_training.dkt_memoize_single_recurse.
  - destruct horizon as [|h]; [reflexivity|].
    replace (S (S h) - 1)%nat with (S h) by lia.
    cbn [model_training.dkt_memoize_single_recurse_depth].
    rewrite decide_False by lia. reflexivity.
  - reflexivity.
Qed.

(** X20. With no concept or with horizon 0 there is nothing to memoize:
    [dkt_memoize_single] loads the model, makes no assignment and saves the
    tables as they were allocated, all zeros. *)
Theorem dkt_memoize_single_nothing_to_memoize {W : Type} `{Runtime W}
    (n_concepts : nat) (model_id checkpoint : string) (horizon : nat)
    (outfile : string) (w : W) :
  n_concepts = 0%nat \/ horizon = 0%nat ->
  model_training.dkt_memoize_single n_concepts model_id checkpoint horizon
    outfile w
  = match load_dynamics_model model_id horizon checkpoint w with
    | (Ok _, w') =>
        np_savez_mem outfile
          (model_training.allocate_mem_arrays n_concepts horizon) w'
    | (Raise e, w') => (Raise e, w')
    end.
Proof.
  intros Hnone. unfold model_training.dkt_memoize_single.
  unfold mbind at 1, io_bind at 1.
  destruct (load_dynamics_model model_id horizon checkpoint w) as [[model|e] w'];
    [|done].
  unfold mbind at 1, io_bind at 1, lift.
  by rewrite (memoize_nothing _ _ _ _ _ Hnone).
Qed.

Lemma dkt_memoize_single_nothing_to_memoize_witness :
  model_training.dkt_memoize_single (H := example_runtime (Ok tt)) 4
    "test2_model_small" "checkpoint" 0 "mem" []
  = (Ok tt, ["load_model"; "savez"]%string).
Proof.
  rewrite (dkt_memoize_single_nothing_to_memoize (H := example_runtime (Ok tt)) 4
             "test2_model_small" "checkpoint" 0 "mem" []).
  - reflexivity.
  - by right.
Defined.



(** ** Numbers of runs that are not positive *)

(** X22. [num_runs] is not validated.  With a negative [num_runs] the
    partition asks for no worker call at all; [dkt_train_models] then
    trains nothing and still writes the statistics file, with empty loss
    lists, and [dkt_memoize_models] does nothing. *)
Theorem negative_num_runs {W : Type} `{Runtime W} (params : TrainParams) (w : W) :
  num_runs params < 0 ->
  model_training.partition_runs params = Ok (num_runs params, [])
  /\ model_training.dkt_train_models_body params w
     = np_savez_stats (path_join (dir_name params) (stat_name params)) [] []
         (saved_epochs params) w
  /\ model_training.dkt_memoize_models params w = (Ok tt, w).
Proof.
  intros Hneg.
  assert (Hpart : model_training.partition_runs params = Ok (num_runs params, [])).
  { unfold model_training.partition_runs.
    rewrite Z.min_r by lia. unfold py_mod, py_int_div.
    destruct (Z.eqb_spec (num_runs params) 0) as [E|_]; [lia|].
    simpl. rewrite Z_mod_same_full. simpl.
    rewrite Z_div_same_full by lia.
    unfold py_range3. simpl.
    replace (Z.to_nat ((num_runs params - 0 + 1 - 1) / 1)) with 0%nat
      by (rewrite Z.div_1_r; lia).
    reflexivity. }
  split; [exact Hpart|]. split.
  - unfold model_training.dkt_train_models_body.
    rewrite Hpart. unfold mbind at 1, io_bind at 1, lift.
    unfold Parallel.
    destruct (Z.eqb_spec (num_runs params) 0) as [E|_]; [lia|].
    reflexivity.
  - unfold model_training.dkt_memoize_models.
    rewrite Hpart. unfold mbind at 1, io_bind at 1, lift.
    unfold Parallel.
    destruct (Z.eqb_spec (num_runs params) 0) as [E|_]; [lia|].
    reflexivity.
Qed.

Lemma negative_num_runs_witness :
  model_training.dkt_train_models_body (H := example_runtime (Ok tt))
    (example_params (-3)) []
  = (Ok tt, ["savez"%string]).
Proof.
  rewrite (proj1 (proj2 (negative_num_runs (H := example_runtime (Ok tt))
                           (example_params (-3)) [] ltac:(simpl; lia)))).
  reflexivity.
Defined.

(** ** The sequential training of mcts_tests.py *)

(** X23. The sequential [dkt_train_models] of mcts_tests.py needs a saved
    epoch.  With an empty [saved_epochs] it stops with [IndexError] right
    after the attempt to create the directory: no data is loaded and
    nothing is trained or written.  With saved epochs but no run to do
    ([num_runs] zero or negative) it loads the data and writes the
    statistics file with empty loss lists. *)
Theorem sequential_training_edges {W : Type} `{Runtime W}
    (params : TrainParams) (w : W) :
  (saved_epochs params = [] ->
   mcts_tests.dkt_train_models params w
   = (Raise IndexError, snd (os_makedirs (dir_name params) w)))
  /\ (saved_epochs params <> [] -> num_runs params <= 0 ->
      mcts_tests.dkt_train_models params w
      = (_ ← load_training_data params;
         np_savez_stats (path_join (dir_name params) (stat_name params)) [] []
           (saved_epochs params))
          (snd (os_makedirs (dir_name params) w))).
Proof.
  split.
  - intros Heps. unfold mcts_tests.dkt_train_models, mcts_tests.dkt_train_models_body.
    rewrite Heps. reflexivity.
  - intros Heps Hruns.
    unfold mcts_tests.dkt_train_models, mcts_tests.dkt_train_models_body.
    unfold mbind at 1, io_bind at 1, try_except_pass.
    destruct (exists_last Heps) as (front & ep & ->).
    rewrite py_getitem_int_last.
    unfold mbind at 1, io_bind at 1, lift.
    unfold py_range. replace (Z.to_nat (num_runs params)) with 0%nat by lia.
    reflexivity.
Qed.

Lemma sequential_training_edges_witness :
  mcts_tests.dkt_train_models (H := example_runtime (Raise (OSError EEXIST)))
    {| model_id := "test2_model_small"; n_concepts := 4; saved_epochs := [];
       run_name := "runB"; num_runs := 5; mem_horizon := 1;
       dir_name := "experiments/test2_model_small"; stat_name := "stats-runB" |} []
  = (Raise IndexError, ["makedirs"%string]).
Proof.
  apply (proj1 (sequential_training_edges (H := example_runtime (Raise (OSError EEXIST)))
                  {| model_id := "test2_model_small"; n_concepts := 4;
                     saved_epochs := []; run_name := "runB"; num_runs := 5;
                     mem_horizon := 1; dir_name := "experiments/test2_model_small";
                     stat_name := "stats-runB" |} [])).
  reflexivity.
Defined.
